(** * The download base class of mfm_learner: retry loop, start date, persistence

    A shallow embedding of
    [utils/tushare_download/downloaders/base_downloader.py] and
    [utils/tushare_download/downloaders/trade_cal.py].

    Python objects that live outside the interpreter (the Tushare service,
    the database behind [db_engine], the wall clock) are threaded as explicit
    state; what a method does to them is recorded as a list of events.
    Logging is an observation only and is left out. *)

From Stdlib Require Import ZArith QArith Lia.
From stdpp Require Import base option strings pretty list gmap.
From Equations Require Import Equations.

Local Open Scope Z_scope.

(** ** Python values the code handles *)

(** An exception object: its class, its [args], and the exception that was
    being handled when it was raised ([__context__]). *)
#[warnings="-register-all"]
Inductive exn : Type :=
| PyExc (cls : string) (args : list string) (context : option exn).

Definition exc_class (e : exn) : string := let 'PyExc c _ _ := e in c.
Definition exc_args (e : exn) : list string := let 'PyExc _ a _ := e in a.
Definition exc_context (e : exn) : option exn := let 'PyExc _ _ c := e in c.

(** A call either returns a value or raises. *)
Inductive result (A : Type) : Type :=
| Return (a : A)
| Raise (e : exn).
Arguments Return {A} a.
Arguments Raise {A} e.

(** Keyword arguments, in the order they were given. *)
Definition kwargs : Type := list (string * string).

(** The callable handed to [retry_call]: a Tushare API method.  It runs
    against the outside world [W] and yields a value of type [D]
    (a data frame) or raises. *)
Definition callable (W D : Type) : Type := kwargs -> W -> result D * W.

(** ** Module constants *)

Definition RETRY : Z := 5.
Definition WAIT : Z := 1.
Definition MAX_PER_SECOND : Z := 200.
Definition CALL_INTERVAL : Q := (60 / inject_Z MAX_PER_SECOND)%Q.
Definition EALIEST_DATE : string := "20080101".

(** ** The instance *)

(** The attributes [__init__] sets, apart from the two handles
    ([db_engine], [pro]) whose state is the outside world. *)
Record BaseDownload : Type := {
  retry_count : Z;
  save_dir : string;
  call_interval : Q
}.

Definition BaseDownload_init : BaseDownload :=
  {| retry_count := 0;
     save_dir := "data/tushare_download";
     call_interval := CALL_INTERVAL |}.

Definition set_retry_count (n : Z) (self : BaseDownload) : BaseDownload :=
  {| retry_count := n;
     save_dir := save_dir self;
     call_interval := call_interval self |}.

(** ** Data frames and column types *)

(** What pandas knows about a column's values. *)
Inductive pd_dtype : Type :=
| pd_object | pd_int64 | pd_float64 | pd_bool | pd_datetime64.

(** Column types of the database ([sqlalchemy.types]). *)
Inductive sql_type : Type :=
| VARCHAR (length : Z)
| TEXT | BIGINT | FLOAT | BOOLEAN | DATETIME.

(** A value in a frame or a table, held as text; [None] is NULL. *)
Definition cell : Type := option string.

Record DataFrame : Type := {
  df_columns : list (string * pd_dtype);
  df_rows : list (list cell)
}.

Definition len (df : DataFrame) : nat := length (df_rows df).

(** ** Observable effects *)

Inductive event : Type :=
| Call (kw : kwargs)
    (* the callable is invoked with these keyword arguments *)
| Sleep (secs : Z)
    (* time.sleep(secs) *)
| ToSql (name : string) (df : DataFrame) (if_exists : string)
        (dtype : gmap string sql_type) (chunksize : Z)
    (* df.to_sql(name, engine, index=False, if_exists, dtype, chunksize) *)
| CreateDbIndex (name : string) (df : DataFrame).
    (* db_utils.create_db_index(engine, name, df) *)

(** What a method call leaves behind: its outcome, the state it ends in and
    what it did on the way. *)
Record run (St A : Type) : Type := Run {
  outcome : result A;
  state_after : St;
  events : list event
}.
Arguments Run {St A} _ _ _.
Arguments outcome {St A} _.
Arguments state_after {St A} _.
Arguments events {St A} _.

Definition self_after {W A} (r : run (BaseDownload * W) A) : BaseDownload :=
  fst (state_after r).
Definition world_after {W A} (r : run (BaseDownload * W) A) : W :=
  snd (state_after r).

(** Events that happened before the rest of a run. *)
Definition after {St A} (evs : list event) (r : run St A) : run St A :=
  Run (outcome r) (state_after r) (evs ++ events r).

Definition exhausted_message : string := "尝试调用Tushare API多次失败......".

Definition RuntimeError (msg : string) : exn := PyExc "RuntimeError" [msg] None.

(** ** [BaseDownload.retry_call] *)

Section RetryCall.
Context {W D : Type}.
Variable func : callable W D.
Variable kw : kwargs.

(** The [while] loop.  Every iteration that does not return increments
    [retry_count], so [RETRY - retry_count] decreases.  The bare
    [except:] catches whatever [func] raises; the final [raise] stands
    after the loop, outside any handler, so the new exception has no
    context. *)
Equations? retry_call (self : BaseDownload) (w : W) : run (BaseDownload * W) D
  by wf (Z.to_nat (RETRY - retry_count self)) lt :=
retry_call self w with Z_lt_dec (retry_count self) RETRY := {
  | left _ with func kw w := {
      | (Return df, w') :=
          Run (Return df) (set_retry_count 0 self, w') [Call kw];
      | (Raise _, w') :=
          let sleep := 2 ^ retry_count self in
          after [Call kw; Sleep (sleep * 30)]
                (retry_call (set_retry_count (retry_count self + 1) self) w') };
  | right _ :=
      Run (Raise (RuntimeError exhausted_message)) (self, w) [] }.
Proof. simpl. lia. Qed.

(** The world after [k] attempts in a row that all raise, if they do. *)
Fixpoint fails_times (k : nat) (w : W) : option W :=
  match k with
  | O => Some w
  | S k' =>
      match func kw w with
      | (Raise _, w') => fails_times k' w'
      | (Return _, _) => None
      end
  end.

(** Every attempt made from [w] on raises. *)
Definition every_attempt_fails (w : W) : Prop :=
  forall k, is_Some (fails_times k w).

(** [func] raises exactly [k] times from [w] and then returns [df]. *)
Definition fails_then_succeeds (k : nat) (w : W) (df : D) (w' : W) : Prop :=
  exists wk, fails_times k w = Some wk /\ func kw wk = (Return df, w').
End RetryCall.

(** A sequence of [retry_call]s on one instance, the caller catching
    whatever each of them raises. *)
Fixpoint retry_calls {W D} (calls : list (callable W D * kwargs))
    (self : BaseDownload) (w : W) : list (run (BaseDownload * W) D) :=
  match calls with
  | [] => []
  | (func, kw) :: rest =>
      let r := retry_call func kw self w in
      r :: retry_calls rest (self_after r) (world_after r)
  end.

(** ** Reading a trace *)

Definition is_call (ev : event) : bool :=
  match ev with Call _ => true | _ => false end.

Definition attempts (tr : list event) : nat := length (filter is_call tr).

Definition sleeps (tr : list event) : list Z :=
  omap (fun ev => match ev with Sleep s => Some s | _ => None end) tr.

Definition total_sleep (tr : list event) : Z := foldr Z.add 0 (sleeps tr).

(** Time slept in front of each provider call, since the call before it
    (or since the start of the trace, for the first call). *)
Fixpoint slept_before_calls (acc : Z) (tr : list event) : list Z :=
  match tr with
  | [] => []
  | Call _ :: tr' => acc :: slept_before_calls 0 tr'
  | Sleep s :: tr' => slept_before_calls (acc + s) tr'
  | _ :: tr' => slept_before_calls acc tr'
  end.

(** Time slept between each two successive provider calls. *)
Definition call_gaps (tr : list event) : list Z := tail (slept_before_calls 0 tr).

(** Successive provider calls are at least [interval] seconds apart. *)
Definition spaced (interval : Q) (tr : list event) : Prop :=
  Forall (fun gap => (interval <= inject_Z gap)%Q) (call_gaps tr).

(** The backoff schedule: what [k] failed attempts leave in the trace when
    the first of them runs at attempt count [c]. *)
Fixpoint failed_attempts (kw : kwargs) (c : Z) (k : nat) : list event :=
  match k with
  | O => []
  | S k' => Call kw :: Sleep (2 ^ c * 30) :: failed_attempts kw (c + 1) k'
  end.

(** Sum of [2^i * base_delay] for [i] in [[0, k)]. *)
Definition backoff_sum (base_delay : Z) (k : nat) : Z :=
  foldr Z.add 0 (map (fun i => 2 ^ Z.of_nat i * base_delay) (seq 0 k)).

(** ** Sequencing calls that may raise *)

#[global] Instance result_ret : MRet result := fun _ a => Return a.
#[global] Instance result_bind : MBind result := fun _ _ f m =>
  match m with
  | Return a => f a
  | Raise e => Raise e
  end.

Definition AssertionError : exn := PyExc "AssertionError" [] None.

(** The [assert] statement. *)
Definition assert (b : bool) : result unit :=
  if b then Return tt else Raise AssertionError.

(** ** What the code asks of its collaborators *)

(** The abstract methods of [BaseDownload], supplied by each subclass. *)
Class DatasetSource : Type := {
  get_table_name : string;
  get_date_column_name : string
}.

(** The database behind [db_engine], seen through the four operations the
    base class uses.  [S] is the state of the database. *)
Class Store (S : Type) : Type := {
  (* db_utils.is_table_exist(engine, name) *)
  is_table_exist : S -> string -> bool;
  (* pd.read_sql of the query "select max(column) from table" *)
  read_sql_max : string -> string -> S -> result DataFrame;
  (* df.to_sql(name, engine, index=False, if_exists, dtype, chunksize) *)
  to_sql : string -> DataFrame -> string -> gmap string sql_type -> Z ->
           S -> result unit * S;
  (* db_utils.create_db_index(engine, name, df) *)
  create_db_index : string -> DataFrame -> S -> result unit * S
}.

(** [df.iloc[:, 0].item()]: the only value of the first column. *)
Definition iloc_first_item (df : DataFrame) : result cell :=
  match df_columns df with
  | [] => Raise (PyExc "IndexError" ["single positional indexer is out-of-bounds"] None)
  | _ :: _ =>
      match df_rows df with
      | [row] => Return (default None (head row))
      | _ => Raise (PyExc "ValueError" ["can only convert an array of size 1 to a Python scalar"] None)
      end
  end.

(** The column types [to_db] passes to [to_sql]. *)
Definition dtype_dic : gmap string sql_type :=
  {[ "ts_code" := VARCHAR 9;
     "trade_date" := VARCHAR 8;
     "ann_date" := VARCHAR 8 ]}.

Section Downloader.
Context {S : Type} {store : Store S} {source : DatasetSource}.

(** [utils.tomorrow], which is not among the sources: the date string
    one day later, or an exception. *)
Variable tomorrow : string -> result string.

(** [BaseDownload.get_start_date] *)
Definition get_start_date (s : S) : result string :=
  if negb (is_table_exist s get_table_name) then Return EALIEST_DATE
  else
    let table_name := get_table_name in
    let date_column_name := get_date_column_name in
    df ← read_sql_max date_column_name table_name s;
    _ ← assert (bool_decide (len df = 1%nat));
    latest_date ← iloc_first_item df;
    match latest_date with
    | None => Return EALIEST_DATE
    | Some latest_date => tomorrow latest_date
    end.

(** [BaseDownload.to_db].  An exception of [to_sql] leaves the method at
    once; [create_db_index] runs only after a write that returned. *)
Definition to_db (df : DataFrame) (if_exists : string) (s : S) : run S unit :=
  let write := ToSql get_table_name df if_exists dtype_dic 1000 in
  match to_sql get_table_name df if_exists dtype_dic 1000 s with
  | (Raise e, s') => Run (Raise e) s' [write]
  | (Return _, s') =>
      let '(r, s'') := create_db_index get_table_name df s' in
      Run r s'' [write; CreateDbIndex get_table_name df]
  end.

(** [to_db(df)]: the default of [if_exists]. *)
Definition to_db_default (df : DataFrame) (s : S) : run S unit :=
  to_db df "append" s.
End Downloader.

(** ** [TradeCalendar] *)

#[global] Instance TradeCalendar : DatasetSource := {|
  get_table_name := "trade_cal";
  get_date_column_name := "cal_date"
|}.

(** [TradeCalendar.download]: [self.pro.trade_cal()] is called directly and
    without arguments, then the frame replaces the table. *)
Definition download {W S : Type} {store : Store S}
    (trade_cal : callable W DataFrame) (st : W * S) : run (W * S) unit :=
  match trade_cal [] (fst st) with
  | (Raise e, w') => Run (Raise e) (w', snd st) [Call []]
  | (Return df, w') =>
      let r := to_db (source := TradeCalendar) df "replace" (snd st) in
      Run (outcome r) (w', state_after r) (Call [] :: events r)
  end.

(** ** A database in memory

    pandas, SQLAlchemy and the database are libraries, not code of the
    repository.  This store follows their documented behaviour closely
    enough to run the methods above on concrete tables. *)

Record Table : Type := {
  tbl_columns : list (string * sql_type);
  tbl_rows : list (list cell);
  tbl_indexes : list string
}.

(** The type pandas derives from a column's values when [dtype] does not
    name the column. *)
Definition inferred_type (dt : pd_dtype) : sql_type :=
  match dt with
  | pd_object => TEXT
  | pd_int64 => BIGINT
  | pd_float64 => FLOAT
  | pd_bool => BOOLEAN
  | pd_datetime64 => DATETIME
  end.

(** The type a column is created with: the entry of [dtype] when there is
    one, the inferred type otherwise. *)
Definition sqlalchemy_type (dtype : gmap string sql_type)
    (col : string * pd_dtype) : sql_type :=
  match dtype !! fst col with
  | Some ty => ty
  | None => inferred_type (snd col)
  end.

(** CREATE TABLE from a frame, followed by the insertion of its rows. *)
Definition new_table (df : DataFrame) (dtype : gmap string sql_type) : Table :=
  {| tbl_columns := map (fun col => (fst col, sqlalchemy_type dtype col)) (df_columns df);
     tbl_rows := df_rows df;
     tbl_indexes := [] |}.

Definition index_of (c : string) (cols : list string) : option nat :=
  fst <$> list_find (fun x => x = c) cols.

(** INSERT with named columns: each column of the table takes the frame's
    value of that name, NULL when the frame has none. *)
Definition inserted_row (table_cols frame_cols : list string)
    (row : list cell) : list cell :=
  map (fun c => match index_of c frame_cols with
                | Some i => default None (row !! i)
                | None => None
                end) table_cols.

Definition insert_rows (df : DataFrame) (tbl : Table) : Table :=
  {| tbl_columns := tbl_columns tbl;
     tbl_rows := tbl_rows tbl ++
       map (inserted_row (map fst (tbl_columns tbl)) (map fst (df_columns df)))
           (df_rows df);
     tbl_indexes := tbl_indexes tbl |}.

Definition ValueError (msg : string) : exn := PyExc "ValueError" [msg] None.
Definition OperationalError (msg : string) : exn := PyExc "OperationalError" [msg] None.

(** [DataFrame.to_sql] with [index=False].  The three checks in front
    reject a mode that is not one of the three, a zero chunk size, and a
    frame with two columns of one name.  Then: a table that is not there is
    created; one that is there makes mode [fail] raise, is dropped and
    created again in mode [replace], and receives the rows in mode
    [append], if it has all the frame's columns.  All chunks go in one
    transaction, so a failed write changes nothing. *)
Definition pandas_to_sql (name : string) (df : DataFrame) (if_exists : string)
    (dtype : gmap string sql_type) (chunksize : Z)
    (db : gmap string Table) : result unit * gmap string Table :=
  if negb (bool_decide (if_exists ∈ ["fail"; "replace"; "append"])) then
    (Raise (ValueError "not valid for if_exists"), db)
  else if bool_decide (chunksize = 0) then
    (Raise (ValueError "chunksize argument should be non-zero"), db)
  else if negb (bool_decide (NoDup (map fst (df_columns df)))) then
    (Raise (OperationalError "duplicate column name"), db)
  else
    match db !! name with
    | None => (Return tt, <[name := new_table df dtype]> db)
    | Some tbl =>
        if bool_decide (if_exists = "fail") then
          (Raise (ValueError "Table already exists."), db)
        else if bool_decide (if_exists = "replace") then
          (Return tt, <[name := new_table df dtype]> db)
        else if bool_decide (map fst (df_columns df) ⊆ map fst (tbl_columns tbl)) then
          (Return tt, <[name := insert_rows df tbl]> db)
        else
          (Raise (OperationalError "table has no such column"), db)
    end.

(** The values a table holds in one of its columns. *)
Definition column_cells (i : nat) (tbl : Table) : list cell :=
  map (fun row => default None (row !! i)) (tbl_rows tbl).

(** [a] does not come after [b] in the order of strings. *)
Definition str_le (a b : string) : Prop := String.compare a b <> Gt.

Definition str_max (a b : string) : string := if String.ltb a b then b else a.

(** SQL's max: NULLs are skipped, and the result is NULL when nothing is
    left.  Text compares bytewise. *)
Definition cell_max (a b : cell) : cell :=
  match a, b with
  | Some x, Some y => Some (str_max x y)
  | Some x, None => Some x
  | None, _ => b
  end.

Definition column_max (cells : list cell) : cell := foldr cell_max None cells.

Definition mem_read_sql_max (column table : string)
    (db : gmap string Table) : result DataFrame :=
  match db !! table with
  | None => Raise (OperationalError "no such table")
  | Some tbl =>
      match index_of column (map fst (tbl_columns tbl)) with
      | None => Raise (OperationalError "no such column")
      | Some i =>
          Return {| df_columns := [("max", pd_object)];
                    df_rows := [[column_max (column_cells i tbl)]] |}
      end
  end.

Section MemStore.
(** The columns [db_utils.create_db_index] wants indexed, given the table
    name and the frame just written. *)
Variable expected_indexes : string -> DataFrame -> list string.

(** Modelled from the spec: [db_utils.is_table_exist] is not among the
    sources; the store contract has [table_exists(name) -> bool]. *)
Definition mem_is_table_exist (db : gmap string Table) (name : string) : bool :=
  bool_decide (is_Some (db !! name)).

(** Modelled from the spec: [db_utils.create_db_index] is not among the
    sources; after a write, the indexes that are expected and missing are
    created, and one that is already there is left alone.  Rows and
    columns are not touched. *)
Definition mem_create_db_index (name : string) (df : DataFrame)
    (db : gmap string Table) : result unit * gmap string Table :=
  match db !! name with
  | None => (Raise (OperationalError "no such table"), db)
  | Some tbl =>
      let missing := filter (fun c => c ∉ tbl_indexes tbl) (expected_indexes name df) in
      (Return tt,
       <[name := {| tbl_columns := tbl_columns tbl;
                    tbl_rows := tbl_rows tbl;
                    tbl_indexes := tbl_indexes tbl ++ missing |}]> db)
  end.

Definition mem_store : Store (gmap string Table) := {|
  is_table_exist := mem_is_table_exist;
  read_sql_max := mem_read_sql_max;
  to_sql := pandas_to_sql;
  create_db_index := mem_create_db_index
|}.
End MemStore.

(** ** Dates *)

Definition digit_of (a : Ascii.ascii) : option Z :=
  let n := Z.of_nat (Ascii.nat_of_ascii a) in
  if (48 <=? n) && (n <=? 57) then Some (n - 48) else None.

Fixpoint number_of (acc : Z) (l : list Ascii.ascii) : option Z :=
  match l with
  | [] => Some acc
  | a :: l' => d ← digit_of a; number_of (acc * 10 + d) l'
  end.

(** A date written as eight digits, year first. *)
Definition parse_date (s : string) : option (Z * Z * Z) :=
  let l := String.list_ascii_of_string s in
  if bool_decide (length l = 8%nat) then
    y ← number_of 0 (take 4 l);
    m ← number_of 0 (take 2 (drop 4 l));
    d ← number_of 0 (drop 6 l);
    Some (y, m, d)
  else None.

Definition is_leap (y : Z) : bool :=
  ((y mod 4 =? 0) && negb (y mod 100 =? 0)) || (y mod 400 =? 0).

Definition days_in_month (y m : Z) : Z :=
  if m =? 2 then (if is_leap y then 29 else 28)
  else if (m =? 4) || (m =? 6) || (m =? 9) || (m =? 11) then 30
  else 31.

Definition valid_date (y m d : Z) : bool :=
  (1 <=? y) && (1 <=? m) && (m <=? 12) && (1 <=? d) && (d <=? days_in_month y m).

Definition next_day (y m d : Z) : Z * Z * Z :=
  if d <? days_in_month y m then (y, m, d + 1)
  else if m <? 12 then (y, m + 1, 1)
  else (y + 1, 1, 1).

Fixpoint zeros (n : nat) : string :=
  match n with
  | O => ""
  | S n' => "0" +:+ zeros n'
  end.

Definition pad (width : nat) (n : Z) : string :=
  let s := pretty n in zeros (width - String.length s) +:+ s.

Definition format_date (date : Z * Z * Z) : string :=
  let '(y, m, d) := date in pad 4 y +:+ pad 2 m +:+ pad 2 d.

(** Modelled from the spec: [utils.tomorrow] is not among the sources; the
    start date is [max(date_column) + 1 day] over the fixed-width date
    text.  Text that is not a date raises, as does the day after the last
    date a four-digit year can hold. *)
Definition tomorrow (s : string) : result string :=
  match parse_date s with
  | None => Raise (ValueError "does not match format")
  | Some (y, m, d) =>
      if negb (valid_date y m d) then Raise (ValueError "does not match format")
      else if (y =? 9999) && (m =? 12) && (d =? 31) then
        Raise (PyExc "OverflowError" ["date value out of range"] None)
      else Return (format_date (next_day y m d))
  end.

(** ** Providers and frames to run the code on *)

(** A callable that raises [e] whatever it is given. *)
Definition always_raises {D : Type} (e : exn) : callable unit D :=
  fun _ w => (Raise e, w).

(** A callable that raises [e] on its first [k] calls and returns [df] from
    then on; its world counts the calls made so far. *)
Definition flaky {D : Type} (k : nat) (e : exn) (df : D) : callable nat D :=
  fun _ n => if (n <? k)%nat then (Raise e, Datatypes.S n) else (Return df, Datatypes.S n).

(** A callable that returns [df] at once. *)
Definition returns {D : Type} (df : D) : callable unit D :=
  fun _ w => (Return df, w).

Definition quota_error : exn :=
  PyExc "Exception" ["抱歉，您每分钟最多访问该接口400次"] None.
Definition network_error : exn :=
  PyExc "ConnectTimeout" ["connection timed out"] None.

Definition three_days : DataFrame :=
  {| df_columns := [("exchange", pd_object); ("cal_date", pd_object); ("is_open", pd_int64)];
     df_rows := [[Some "SSE"; Some "20080101"; Some "0"];
                 [Some "SSE"; Some "20080102"; Some "1"];
                 [Some "SSE"; Some "20080103"; Some "1"]] |}.

Definition two_quotes : DataFrame :=
  {| df_columns := [("ts_code", pd_object); ("trade_date", pd_object); ("close", pd_float64)];
     df_rows := [[Some "000001.SZ"; Some "20080102"; Some "38.6"];
                 [Some "000002.SZ"; Some "20080102"; Some "28.9"]] |}.

Definition date_indexes : string -> DataFrame -> list string :=
  fun _ df => filter (fun c => c ∈ ["ts_code"; "trade_date"; "cal_date"]) (map fst (df_columns df)).

(** The calendar table with its columns and no rows. *)
Definition empty_calendar : gmap string Table :=
  {[ "trade_cal" := {| tbl_columns := [("exchange", TEXT); ("cal_date", TEXT);
                                       ("is_open", BIGINT)];
                       tbl_rows := [];
                       tbl_indexes := [] |} ]}.

(** The calendar table after [three_days] has been written to it. *)
Definition three_days_table : Table :=
  {| tbl_columns := [("exchange", TEXT); ("cal_date", TEXT); ("is_open", BIGINT)];
     tbl_rows := df_rows three_days;
     tbl_indexes := ["cal_date"] |}.

Definition calendar_of_three_days : gmap string Table :=
  {[ "trade_cal" := three_days_table ]}.

(** ** Reading a store and its trace *)

Definition is_write (ev : event) : bool :=
  match ev with ToSql _ _ _ _ _ => true | _ => false end.

(** How many times [to_sql] was called. *)
Definition writes (tr : list event) : nat := length (filter is_write tr).

(** Every column that [dtype_dic] names has, in every table, the type
    [dtype_dic] gives it. *)
Definition explicit_types (db : gmap string Table) : Prop :=
  forall name tbl c ty ty',
    db !! name = Some tbl ->
    (c, ty) ∈ tbl_columns tbl ->
    dtype_dic !! c = Some ty' ->
    ty = ty'.

(** The rows a frame adds to a table in append mode. *)
Definition appended_rows (df : DataFrame) (tbl : Table) : list (list cell) :=
  map (inserted_row (map fst (tbl_columns tbl)) (map fst (df_columns df)))
      (df_rows df).

(** The values a frame holds in one of its columns. *)
Definition frame_cells (i : nat) (df : DataFrame) : list cell :=
  map (fun row => default None (row !! i)) (df_rows df).

(** A dataset of daily quotes, keyed by [trade_date]. *)
Definition daily_quotes : DatasetSource := {|
  get_table_name := "daily";
  get_date_column_name := "trade_date"
|}.

(** The quotes table after [two_quotes] has been written to it. *)
Definition two_quotes_table : Table :=
  {| tbl_columns := [("ts_code", VARCHAR 9); ("trade_date", VARCHAR 8);
                     ("close", FLOAT)];
     tbl_rows := df_rows two_quotes;
     tbl_indexes := ["ts_code"; "trade_date"] |}.

Definition daily_db : gmap string Table := {[ "daily" := two_quotes_table ]}.

(** Quotes of the day after those of [two_quotes]. *)
Definition next_quotes : DataFrame :=
  {| df_columns := [("ts_code", pd_object); ("trade_date", pd_object); ("close", pd_float64)];
     df_rows := [[Some "000001.SZ"; Some "20080103"; Some "39.1"];
                 [Some "000002.SZ"; Some "20080103"; Some "28.4"]] |}.

(** * The base class of the backtest strategies

    [example/backtest/strategy_base.py]: [MultiStocksFactorStrategy], a
    backtrader strategy that every [period] bars sells what is no longer
    selected and buys what is newly selected.  Amounts are Python floats;
    their arithmetic is left to the platform and only the way the code
    uses it is modelled. *)

(** What the strategy takes from Python and backtrader. *)
Class Platform : Type := {
  (* Python floats *)
  Fl : Type;
  (* what [self.datas[0].datetime.datetime(0)] returns *)
  Date : Type;
  (* the [factor_dict] handed to the constructor *)
  Factors : Type;
  (* (1 - 0.02) / n, for n > 0 *)
  percentage_of : nat -> Fl;
  (* a * b *)
  fmul : Fl -> Fl -> Fl;
  (* math.ceil(a / b), which raises when b is zero or a / b is not finite *)
  ceil_div : Fl -> Fl -> result Z;
  (* the order in which Python iterates over a set of strings: every
     element once, in an order the code has no say in *)
  iter_set : gset string -> list string;
  iter_set_perm : forall s, iter_set s ≡ₚ elements s
}.

(** The abstract method [select_stocks(factors, current_date)] of the
    subclass: the names selected, [None], or an exception. *)
Class StockSelector `{Platform} : Type := {
  select_stocks : Factors -> Date -> result (option (list string))
}.

(** The attributes [__init__] sets. *)
Record MultiStocksFactorStrategy `{Platform} : Type := {
  period : Z;
  factor_dict : Factors;
  current_day : Z;
  current_stocks : list string;
  count : Z
}.

Definition MultiStocksFactorStrategy_init `{Platform}
    (period : Z) (factor_dict : Factors) : MultiStocksFactorStrategy :=
  {| period := period;
     factor_dict := factor_dict;
     current_day := 0;
     current_stocks := [];
     count := 0 |}.

(** What backtrader shows the strategy on one bar: the date of the bar, the
    names of the data feeds ([getdatanames()]), the opening price of each
    feed ([open[0]]) and the broker's cash ([getcash()]). *)
Record Market `{Platform} : Type := {
  bar_date : Date;
  datanames : list string;
  open_price : string -> Fl;
  cash : Fl
}.

(** What the strategy does on a bar. *)
Inductive order_event `{Platform} : Type :=
| SelectStocks (current_date : Date)
    (* self.select_stocks(self.factor_dict, current_date) *)
| Close (name : string)
    (* self.close(data=stock_data, exectype=bt.Order.Limit) *)
| Buy (name : string) (size : Z) (price : Fl).
    (* self.buy(data=stock_data, size=size, price=price, exectype=bt.Order.Limit) *)

Record day `{Platform} (St A : Type) : Type := Day {
  day_outcome : result A;
  day_state : St;
  day_orders : list order_event
}.
Arguments Day {_ St A} _ _ _.
Arguments day_outcome {_ St A} _.
Arguments day_state {_ St A} _.
Arguments day_orders {_ St A} _.

(** Orders placed before the rest of a bar. *)
Definition ahead `{Platform} {St A} (evs : list order_event)
    (d : day St A) : day St A :=
  Day (day_outcome d) (day_state d) (evs ++ day_orders d).

(** [l.remove(x)]: the list without the first [x]; [None] when there is no
    [x], where Python raises [ValueError]. *)
Fixpoint list_remove (x : string) (l : list string) : option (list string) :=
  match l with
  | [] => None
  | y :: l' => if decide (y = x) then Some l' else (y ::.) <$> list_remove x l'
  end.

Definition KeyError (key : string) : exn := PyExc "KeyError" [key] None.
Definition ZeroDivisionError : exn :=
  PyExc "ZeroDivisionError" ["float division by zero"] None.

Definition set_current_stocks `{Platform} (stocks : list string)
    (self : MultiStocksFactorStrategy) : MultiStocksFactorStrategy :=
  {| period := period self;
     factor_dict := factor_dict self;
     current_day := current_day self;
     current_stocks := stocks;
     count := count self |}.

Section Strategy.
Context `{selector : StockSelector}.

(** The first loop of [next]: each stock to sell is looked up by name
    ([getdatabyname], a [KeyError] for a name that is no data feed),
    closed, and removed from the list of holdings. *)
Fixpoint sell_stocks (m : Market) (to_sell_stocks : list string)
    (held : list string) : day (list string) unit :=
  match to_sell_stocks with
  | [] => Day (Return tt) held []
  | sell_stock :: rest =>
      if bool_decide (sell_stock ∈ datanames m) then
        match list_remove sell_stock held with
        | Some held' => ahead [Close sell_stock] (sell_stocks m rest held')
        | None =>
            Day (Raise (ValueError "list.remove(x): x not in list")) held
                [Close sell_stock]
        end
      else Day (Raise (KeyError sell_stock)) held []
  end.

(** The second loop of [next]: a selected stock that is no data feed, or is
    held already, is skipped; any other is bought at its opening price, in
    the size the amount pays for, and added to the holdings. *)
Fixpoint buy_stocks (m : Market) (buy_amount : Fl) (selected_stocks : list string)
    (held : list string) : day (list string) unit :=
  match selected_stocks with
  | [] => Day (Return tt) held []
  | buy_stock :: rest =>
      if negb (bool_decide (buy_stock ∈ datanames m)) then
        buy_stocks m buy_amount rest held
      else if bool_decide (buy_stock ∈ held) then
        buy_stocks m buy_amount rest held
      else
        let price := open_price m buy_stock in
        match ceil_div buy_amount price with
        | Raise e => Day (Raise e) held []
        | Return size =>
            ahead [Buy buy_stock size price]
                  (buy_stocks m buy_amount rest (held ++ [buy_stock]))
        end
  end.

(** [MultiStocksFactorStrategy.next], called by backtrader on every bar.
    The test [type(selected_stocks) == np.array] compares a type with a
    function and is never true, so the selection is used as it comes. *)
Definition next (m : Market) (self : MultiStocksFactorStrategy)
    : day MultiStocksFactorStrategy unit :=
  let current_date := bar_date m in
  let self := {| period := period self;
                 factor_dict := factor_dict self;
                 current_day := current_day self + 1;
                 current_stocks := current_stocks self;
                 count := count self + 1 |} in
  if current_day self <? period self then Day (Return tt) self []
  else
    let self := {| period := period self;
                   factor_dict := factor_dict self;
                   current_day := 0;
                   current_stocks := current_stocks self;
                   count := count self |} in
    match select_stocks (factor_dict self) current_date with
    | Raise e => Day (Raise e) self [SelectStocks current_date]
    | Return None => Day (Return tt) self [SelectStocks current_date]
    | Return (Some selected_stocks) =>
        let to_sell_stocks : gset string :=
          list_to_set (current_stocks self) ∖ list_to_set selected_stocks in
        let sold := sell_stocks m (iter_set to_sell_stocks) (current_stocks self) in
        match day_outcome sold with
        | Raise e =>
            Day (Raise e) (set_current_stocks (day_state sold) self)
                (SelectStocks current_date :: day_orders sold)
        | Return _ =>
            if bool_decide (length selected_stocks = 0%nat) then
              Day (Raise ZeroDivisionError)
                  (set_current_stocks (day_state sold) self)
                  (SelectStocks current_date :: day_orders sold)
            else
              let buy_percentage := percentage_of (length selected_stocks) in
              let buy_amount := fmul buy_percentage (cash m) in
              let bought :=
                buy_stocks m buy_amount selected_stocks (day_state sold) in
              Day (day_outcome bought)
                  (set_current_stocks (day_state bought) self)
                  (SelectStocks current_date :: day_orders sold ++ day_orders bought)
        end
    end.

(** backtrader calls [next] bar after bar; an exception ends the run. *)
Fixpoint run_days (days : list Market) (self : MultiStocksFactorStrategy)
    : day MultiStocksFactorStrategy unit :=
  match days with
  | [] => Day (Return tt) self []
  | m :: rest =>
      let d := next m self in
      match day_outcome d with
      | Raise _ => d
      | Return _ => ahead (day_orders d) (run_days rest (day_state d))
      end
  end.
End Strategy.

(** ** Reading the orders of a bar *)

Definition closed_names `{Platform} (evs : list order_event) : list string :=
  omap (fun ev => match ev with Close name => Some name | _ => None end) evs.

Definition bought_names `{Platform} (evs : list order_event) : list string :=
  omap (fun ev => match ev with Buy name _ _ => Some name | _ => None end) evs.

(** How many times [select_stocks] was called. *)
Definition selections `{Platform} (evs : list order_event) : nat :=
  length (omap (fun ev => match ev with SelectStocks d => Some d | _ => None end) evs).

(** What holds between bars: no stock is held twice, and every stock held
    is a data feed. *)
Definition holdings_ok (names held : list string) : Prop :=
  NoDup held /\ held ⊆ names.

(** ** A platform to run the strategy on

    Rationals stand in for the floats, the names of a set come in the
    order [elements] gives them, dates are strings. *)

Definition Qceil (q : Q) : Z := - ((- Qnum q) / Z.pos (Qden q)).

#[refine] Instance rational_platform : Platform := {|
  Fl := Q;
  Date := string;
  Factors := unit;
  percentage_of := fun n => ((1 - (2 # 100)) / inject_Z (Z.of_nat n))%Q;
  fmul := Qmult;
  ceil_div := fun a b =>
    if Qeq_bool b 0 then Raise ZeroDivisionError else Return (Qceil (a / b));
  iter_set := elements
|}.
Proof. reflexivity. Defined.

(** A selector that picks the same names on every date. *)
Definition always_selects (names : option (list string))
  : StockSelector (H := rational_platform) :=
  {| select_stocks := fun _ _ => Return names |}.

Definition sample_market (date : string) : Market (H := rational_platform) :=
  {| bar_date := date;
     datanames := ["000001.SZ"; "000002.SZ"; "600000.SH"];
     open_price := fun name => if decide (name = "600000.SH") then 7 # 2 else 10 # 1;
     cash := 100000 # 1 |}.

Definition sample_strategy (period : Z) (held : list string)
  : MultiStocksFactorStrategy (H := rational_platform) :=
  {| period := period; factor_dict := tt; current_day := period - 1;
     current_stocks := held; count := 0 |}.

(** A strategy fresh from its constructor, rebalancing every third bar. *)
Definition fresh_strategy : MultiStocksFactorStrategy (H := rational_platform) :=
  MultiStocksFactorStrategy_init 3 tt.

(** A selection with a stock twice and a stock that has no data feed. *)
Definition sample_selection : list string :=
  ["600000.SH"; "000001.SZ"; "300001.SZ"; "600000.SH"].

(** A strategy due to rebalance on the next bar, holding two stocks. *)
Definition holding_two : MultiStocksFactorStrategy (H := rational_platform) :=
  sample_strategy 5 ["000002.SZ"; "000001.SZ"].

(** Two later days of the calendar. *)
Definition later_days : DataFrame :=
  {| df_columns := [("exchange", pd_object); ("cal_date", pd_object); ("is_open", pd_int64)];
     df_rows := [[Some "SSE"; Some "20080104"; Some "1"];
                 [Some "SSE"; Some "20080107"; Some "1"]] |}.

(** * Properties *)

(** ** Unfolding [retry_call] *)

Lemma after_nil {St A} (r : run St A) : after [] r = r.
Proof. destruct r; reflexivity. Qed.

Lemma after_after {St A} (a b : list event) (r : run St A) :
  after a (after b r) = after (a ++ b) r.
Proof. unfold after; simpl. by rewrite app_assoc. Qed.

Lemma set_retry_count_same (self : BaseDownload) :
  set_retry_count (retry_count self) self = self.
Proof. destruct self; reflexivity. Qed.

Lemma set_retry_count_twice (n m : Z) (self : BaseDownload) :
  set_retry_count n (set_retry_count m self) = set_retry_count n self.
Proof. reflexivity. Qed.

Section RetryCallFacts.
Context {W D : Type}.
Variable func : callable W D.
Variable kw : kwargs.

(** The loop condition is false: the [raise] after the loop. *)
Lemma retry_call_exhausted (self : BaseDownload) (w : W) :
  RETRY <= retry_count self ->
  retry_call func kw self w =
    Run (Raise (RuntimeError exhausted_message)) (self, w) [].
Proof.
  intros Hge. simp retry_call.
  destruct (Z_lt_dec (retry_count self) RETRY) as [Hlt|Hnlt];
    [lia | reflexivity].
Qed.

(** An attempt that returns. *)
Lemma retry_call_returns (self : BaseDownload) (w w' : W) (df : D) :
  retry_count self < RETRY ->
  func kw w = (Return df, w') ->
  retry_call func kw self w =
    Run (Return df) (set_retry_count 0 self, w') [Call kw].
Proof.
  intros Hlt Hcall. simp retry_call.
  destruct (Z_lt_dec (retry_count self) RETRY) as [?|?]; [|lia].
  simpl. rewrite Hcall. reflexivity.
Qed.

(** An attempt that raises: sleep, count, go round again. *)
Lemma retry_call_raises (self : BaseDownload) (w w' : W) (e : exn) :
  retry_count self < RETRY ->
  func kw w = (Raise e, w') ->
  retry_call func kw self w =
    after [Call kw; Sleep (2 ^ retry_count self * 30)]
          (retry_call func kw (set_retry_count (retry_count self + 1) self) w').
Proof.
  intros Hlt Hcall. rewrite retry_call_equation_1.
  destruct (Z_lt_dec (retry_count self) RETRY) as [?|?]; [|lia].
  simpl. rewrite Hcall. simpl. reflexivity.
Qed.

(** [k] attempts in a row that raise. *)
Lemma retry_call_fails_times (k : nat) :
  forall (self : BaseDownload) (w wk : W),
    retry_count self + Z.of_nat k <= RETRY ->
    fails_times func kw k w = Some wk ->
    retry_call func kw self w =
      after (failed_attempts kw (retry_count self) k)
            (retry_call func kw
               (set_retry_count (retry_count self + Z.of_nat k) self) wk).
Proof.
  induction k as [|k IH]; intros self w wk Hle Hfail.
  - simpl in *. injection Hfail as ->.
    rewrite Z.add_0_r, set_retry_count_same, after_nil. reflexivity.
  - simpl in Hfail.
    destruct (func kw w) as [[df|e] w1] eqn:Hcall; [discriminate|].
    rewrite (retry_call_raises self w w1 e) by (lia || assumption).
    rewrite (IH _ w1 wk); [| simpl; lia | assumption].
    rewrite after_after. simpl.
    rewrite set_retry_count_twice.
    replace (retry_count self + 1 + Z.of_nat k)
      with (retry_count self + Z.of_nat (Datatypes.S k)) by lia.
    reflexivity.
Qed.

Lemma fails_times_prefix (k j : nat) (w : W) :
  (j <= k)%nat -> is_Some (fails_times func kw k w) ->
  is_Some (fails_times func kw j w).
Proof.
  revert j w. induction k as [|k IH]; intros j w Hle Hk.
  - replace j with O by lia. simpl. eauto.
  - destruct j as [|j]; [simpl; eauto|].
    simpl in *. destruct (func kw w) as [[df|e] w1]; [exact Hk|].
    apply IH; [lia | exact Hk].
Qed.

(** From a zero count, failures all the way use up the budget. *)
Lemma retry_call_all_fail (self : BaseDownload) (w : W) :
  retry_count self = 0 ->
  every_attempt_fails func kw w ->
  exists w5,
    fails_times func kw 5 w = Some w5 /\
    retry_call func kw self w =
      Run (Raise (RuntimeError exhausted_message))
          (set_retry_count RETRY self, w5)
          (failed_attempts kw 0 5).
Proof.
  intros H0 Hall. destruct (Hall 5%nat) as [w5 Hw5].
  exists w5. split; [exact Hw5|].
  rewrite (retry_call_fails_times 5 self w w5) by (rewrite ?H0; done).
  rewrite retry_call_exhausted by (simpl; rewrite H0; done).
  rewrite H0. unfold after. simpl. reflexivity.
Qed.

(** From a zero count, [k] failures below the budget and then a return. *)
Lemma retry_call_fails_then_succeeds (k : nat) (self : BaseDownload)
    (w w' : W) (df : D) :
  retry_count self = 0 ->
  Z.of_nat k < RETRY ->
  fails_then_succeeds func kw k w df w' ->
  retry_call func kw self w =
    Run (Return df) (set_retry_count 0 self, w')
        (failed_attempts kw 0 k ++ [Call kw]).
Proof.
  intros H0 Hk (wk & Hfail & Hok).
  rewrite (retry_call_fails_times k self w wk) by (rewrite ?H0; lia || done).
  rewrite (retry_call_returns _ wk w' df) by (simpl; rewrite ?H0; lia || done).
  rewrite H0. unfold after. simpl. reflexivity.
Qed.

(** Whatever [retry_call] raises, it raises with the budget used up. *)
Lemma retry_call_raise_inv (self : BaseDownload) (w : W) (e : exn) :
  outcome (retry_call func kw self w) = Raise e ->
  e = RuntimeError exhausted_message /\
  retry_count (self_after (retry_call func kw self w))
    = Z.max RETRY (retry_count self).
Proof.
  funelim (retry_call func kw self w); intros Hraise; clear Heqcall.
  - unfold self_after. simpl in *. split; [congruence | lia].
  - simpl in Hraise. discriminate.
  - unfold after, self_after in *. simpl in *.
    match goal with
    | IH : forall _, _ -> _ /\ _ |- _ => destruct (IH _ Hraise) as [-> Hrc]
    end.
    split; [reflexivity|]. rewrite Hrc. simpl. lia.
Qed.
End RetryCallFacts.

(** ** Reading the backoff schedule *)

Lemma attempts_app (a b : list event) :
  attempts (a ++ b) = (attempts a + attempts b)%nat.
Proof. unfold attempts. by rewrite filter_app, length_app. Qed.

Lemma attempts_failed_attempts (kw : kwargs) (k : nat) :
  forall c, attempts (failed_attempts kw c k) = k.
Proof.
  induction k as [|k IH]; intros c; [reflexivity|].
  change (failed_attempts kw c (Datatypes.S k))
    with ([Call kw; Sleep (2 ^ c * 30)] ++ failed_attempts kw (c + 1) k).
  rewrite attempts_app, IH. reflexivity.
Qed.

Lemma sleeps_app (a b : list event) : sleeps (a ++ b) = sleeps a ++ sleeps b.
Proof. unfold sleeps. apply omap_app. Qed.

Lemma sleeps_failed_attempts (kw : kwargs) (k : nat) :
  forall c,
    sleeps (failed_attempts kw c k)
    = map (fun i => 2 ^ (c + Z.of_nat i) * 30) (seq 0 k).
Proof.
  induction k as [|k IH]; intros c; [reflexivity|].
  simpl. rewrite Z.add_0_r. f_equal.
  change (omap _ (failed_attempts kw (c + 1) k))
    with (sleeps (failed_attempts kw (c + 1) k)).
  rewrite IH, <- seq_shift, map_map.
  apply map_ext. intros i. do 2 f_equal. lia.
Qed.

Lemma total_sleep_failed_attempts (kw : kwargs) (k : nat) (tr : list event) :
  sleeps tr = [] ->
  total_sleep (failed_attempts kw 0 k ++ tr) = backoff_sum 30 k.
Proof.
  intros Htr. unfold total_sleep, backoff_sum.
  rewrite sleeps_app, Htr, app_nil_r, sleeps_failed_attempts.
  reflexivity.
Qed.

(** The schedule in closed form. *)
Lemma backoff_sum_closed (base_delay : Z) (k : nat) :
  backoff_sum base_delay k = (2 ^ Z.of_nat k - 1) * base_delay.
Proof.
  unfold backoff_sum. induction k as [|k IH]; [reflexivity|].
  rewrite seq_S, map_app, foldr_app. simpl.
  rewrite Nat2Z.inj_succ, Z.pow_succ_r by lia.
  assert (Hshift : forall (l : list Z) (a : Z),
             foldr Z.add a l = foldr Z.add 0 l + a).
  { induction l as [|x l IHl]; intros a; simpl; [lia | rewrite IHl; lia]. }
  rewrite Hshift, IH. lia.
Qed.

(** Before its first attempt [retry_call] sleeps for no time at all. *)
Lemma retry_call_first_attempt_unguarded {W D} (func : callable W D)
    (kw : kwargs) (self : BaseDownload) (w : W) :
  events (retry_call func kw self w) = [] \/
  exists tr, events (retry_call func kw self w) = Call kw :: tr.
Proof.
  destruct (Z_lt_dec (retry_count self) RETRY) as [Hlt|Hge].
  - right. destruct (func kw w) as [[df|e] w'] eqn:Hcall.
    + rewrite (retry_call_returns func kw self w w' df) by assumption.
      simpl. eauto.
    + rewrite (retry_call_raises func kw self w w' e) by assumption.
      simpl. eauto.
  - left. rewrite retry_call_exhausted by lia. reflexivity.
Qed.

(** Inside one invocation the backoff keeps the attempts apart: at least
    30 seconds are slept between an attempt and the next. *)
Lemma retry_call_attempts_apart {W D} (func : callable W D) (kw : kwargs) :
  forall (n : nat) (self : BaseDownload) (w : W),
    Z.to_nat (RETRY - retry_count self) = n ->
    0 <= retry_count self ->
    Forall (fun gap => 30 <= gap) (call_gaps (events (retry_call func kw self w))).
Proof.
  induction n as [|n IH]; intros self w Hn Hpos.
  - rewrite retry_call_exhausted by lia. constructor.
  - destruct (func kw w) as [[df|e] w'] eqn:Hcall.
    + rewrite (retry_call_returns func kw self w w' df) by (lia || assumption).
      constructor.
    + rewrite (retry_call_raises func kw self w w' e) by (lia || assumption).
      specialize (IH (set_retry_count (retry_count self + 1) self) w').
      destruct (retry_call_first_attempt_unguarded func kw
                  (set_retry_count (retry_count self + 1) self) w')
        as [Hnil | [tr Htr]]; simpl; [rewrite Hnil; constructor|].
      rewrite Htr in *. unfold call_gaps in *. simpl in *.
      constructor; [|apply IH; simpl; lia].
      pose proof (Z.pow_pos_nonneg 2 (retry_count self)). lia.
Qed.

(** ** The retry loop *)

(** C1: each provider call would be preceded by a wait for the throttler,
    so that two successive provider calls are at least the configured
    interval apart.  The code has no such wait: every invocation that
    attempts anything opens with the provider call itself, and two
    invocations that succeed at once call the provider back to back,
    zero seconds apart, which is less than [CALL_INTERVAL]. *)
Theorem retry_call_does_not_throttle :
  (forall (W D : Type) (func : callable W D) kw self w,
      events (retry_call func kw self w) = [] \/
      exists tr, events (retry_call func kw self w) = Call kw :: tr) /\
  let kw1 := [("ts_code", "000001.SZ")] in
  let kw2 := [("ts_code", "000002.SZ")] in
  let rs := retry_calls [(returns two_quotes, kw1); (returns two_quotes, kw2)]
                        BaseDownload_init tt in
  let tr := concat (map events rs) in
  map outcome rs = [Return two_quotes; Return two_quotes] /\
  tr = [Call kw1; Call kw2] /\
  call_gaps tr = [0] /\
  ~ spaced (call_interval BaseDownload_init) tr.
Proof.
  split; [intros; apply retry_call_first_attempt_unguarded|].
  repeat split.
  unfold spaced. cbn. intros Hsp. inversion Hsp as [|? ? Hle _]; subst.
  revert Hle. vm_compute. intros Hle. apply Hle. reflexivity.
Qed.

(** C2: every call of [retry_call] would begin with attempt count zero,
    however an earlier one ended.  After a call that used up the budget the
    count is still 5 when the next call begins, and that call raises
    without ever calling a provider that would have returned. *)
Theorem retry_count_survives_exhaustion :
  let r1 := retry_call (always_raises (D := DataFrame) quota_error) []
                       BaseDownload_init tt in
  let r2 := retry_call (returns two_quotes) [] (self_after r1) tt in
  retry_count BaseDownload_init = 0 /\
  outcome r1 = Raise (RuntimeError exhausted_message) /\
  retry_count (self_after r1) = 5 /\
  outcome r2 = Raise (RuntimeError exhausted_message) /\
  events r2 = [].
Proof. repeat split. Qed.

(** C3, as the spec has it: the error raised on exhaustion would carry
    the last failure's cause and the call parameters.  Two calls that fail
    for different reasons, with different parameters, raise one and the
    same [RuntimeError]: a fixed message, no context.  Nothing can read the
    cause or the parameters back from it. *)
Lemma exhausted_error_carries_nothing :
  let run_of (e : exn) (kw : kwargs) :=
    retry_call (always_raises (D := DataFrame) e) kw BaseDownload_init tt in
  let r1 := run_of quota_error [("ts_code", "000001.SZ")] in
  let r2 := run_of network_error [("trade_date", "20080102")] in
  outcome r1 = Raise (PyExc "RuntimeError" [exhausted_message] None) /\
  outcome r2 = outcome r1 /\
  ~ exists (cause_of : exn -> exn) (params_of : exn -> kwargs),
      forall e kw, exists err,
        outcome (run_of e kw) = Raise err /\
        cause_of err = e /\ params_of err = kw.
Proof.
  cbv zeta. split; [reflexivity|]. split; [reflexivity|].
  intros (cause_of & params_of & Hcarry).
  destruct (Hcarry quota_error [("ts_code", "000001.SZ")]) as (err1 & H1 & Hc1 & _).
  destruct (Hcarry network_error [("trade_date", "20080102")]) as (err2 & H2 & Hc2 & _).
  vm_compute in H1, H2.
  assert (err1 = err2) by congruence. subst err2.
  rewrite Hc1 in Hc2. discriminate Hc2.
Qed.

(** C3, amended: on an instance whose attempt count is zero, a provider
    call whose every attempt fails is attempted exactly [RETRY] = 5 times
    (the provider is left in the state after its fifth call), and then
    [retry_call] raises to its caller a [RuntimeError] with a fixed message
    and no context, whatever the failures and the parameters were. *)
Theorem retry_call_gives_up_after_five_attempts :
  forall {W D : Type} (func : callable W D) (kw : kwargs)
         (self : BaseDownload) (w : W),
    retry_count self = 0 ->
    every_attempt_fails func kw w ->
    let r := retry_call func kw self w in
    RETRY = 5 /\
    attempts (events r) = 5%nat /\
    fails_times func kw 5 w = Some (world_after r) /\
    outcome r = Raise (PyExc "RuntimeError" [exhausted_message] None) /\
    retry_count (self_after r) = RETRY.
Proof.
  intros W D func kw self w H0 Hall r.
  destruct (retry_call_all_fail func kw self w H0 Hall) as (w5 & Hw5 & Hrun).
  subst r. rewrite Hrun. unfold world_after, self_after. simpl.
  repeat split; assumption.
Qed.

Lemma retry_call_gives_up_after_five_attempts_witness :
  retry_count BaseDownload_init = 0 /\
  every_attempt_fails (always_raises (D := DataFrame) network_error)
                      [("ts_code", "000001.SZ")] tt /\
  let r := retry_call (always_raises (D := DataFrame) network_error)
                      [("ts_code", "000001.SZ")] BaseDownload_init tt in
  RETRY = 5 /\
  attempts (events r) = 5%nat /\
  fails_times (always_raises (D := DataFrame) network_error)
              [("ts_code", "000001.SZ")] 5 tt = Some (world_after r) /\
  outcome r = Raise (PyExc "RuntimeError" [exhausted_message] None) /\
  retry_count (self_after r) = RETRY.
Proof.
  assert (Hall : every_attempt_fails (always_raises (D := DataFrame) network_error)
                                     [("ts_code", "000001.SZ")] tt).
  { intros k. induction k as [|k IH]; simpl; [eauto | exact IH]. }
  split; [reflexivity|]. split; [exact Hall|].
  apply (retry_call_gives_up_after_five_attempts
           (always_raises (D := DataFrame) network_error)
           [("ts_code", "000001.SZ")] BaseDownload_init tt);
    [reflexivity | exact Hall].
Defined.




(** Two failures and then a success: 30 + 60 = 90 seconds of sleep. *)
Example two_failures_sleep_ninety_seconds :
  backoff_sum 30 2 = 30 + 60 /\
  total_sleep (events (retry_call (flaky 2 quota_error two_quotes) []
                                  BaseDownload_init 0%nat)) = 90.
Proof. split; reflexivity. Qed.

(** C9: once a [retry_call] has used up the budget, the attempt count stays
    at the maximum, and every later [retry_call] on the same instance
    raises the same error at once: it never calls its provider and leaves
    the instance as it found it. *)
Theorem retry_call_stuck_after_exhaustion :
  forall {W D : Type} (func : callable W D) (kw : kwargs)
         (self : BaseDownload) (w : W) (e : exn),
    retry_count self <= RETRY ->
    outcome (retry_call func kw self w) = Raise e ->
    let self' := self_after (retry_call func kw self w) in
    retry_count self' = RETRY /\
    forall (later : list (callable W D * kwargs)) (w' : W),
      Forall (fun r => outcome r = Raise (RuntimeError exhausted_message) /\
                       events r = [] /\
                       state_after r = (self', w'))
             (retry_calls later self' w').
Proof.
  intros W D func kw self w e Hle Hraise self'.
  destruct (retry_call_raise_inv func kw self w e Hraise) as [_ Hrc].
  fold self' in Hrc.
  assert (Hfull : retry_count self' = RETRY) by lia.
  split; [exact Hfull|].
  intros later w'. induction later as [|[g kw'] later IH]; simpl.
  - constructor.
  - rewrite (retry_call_exhausted g kw' self' w') by lia.
    constructor; [repeat split | exact IH].
Qed.

Lemma retry_call_stuck_after_exhaustion_witness :
  retry_count BaseDownload_init <= RETRY /\
  outcome (retry_call (flaky 9 quota_error two_quotes) [] BaseDownload_init 0%nat)
    = Raise (RuntimeError exhausted_message) /\
  let self' := self_after (retry_call (flaky 9 quota_error two_quotes) []
                                      BaseDownload_init 0%nat) in
  retry_count self' = RETRY /\
  forall (later : list (callable nat DataFrame * kwargs)) (w' : nat),
    Forall (fun r => outcome r = Raise (RuntimeError exhausted_message) /\
                     events r = [] /\
                     state_after r = (self', w'))
           (retry_calls later self' w').
Proof.
  split; [discriminate|]. split; [reflexivity|].
  apply (retry_call_stuck_after_exhaustion
           (flaky 9 quota_error two_quotes) [] BaseDownload_init 0%nat
           (RuntimeError exhausted_message)); [discriminate | reflexivity].
Defined.




(** ** The start date *)

(** C5: [get_start_date] returns the fallback date ['20080101'] when the
    table does not exist; it returns the fallback date as well when the
    table exists and the maximum of the date column is null; otherwise it
    returns what [utils.tomorrow] makes of that maximum, the day after. *)
Theorem get_start_date_cases :
  forall {S : Type} {store : Store S} {source : DatasetSource}
         (tomorrow : string -> result string) (s : S),
    EALIEST_DATE = "20080101" /\
    (is_table_exist s get_table_name = false ->
     get_start_date tomorrow s = Return "20080101") /\
    (forall df,
        is_table_exist s get_table_name = true ->
        read_sql_max get_date_column_name get_table_name s = Return df ->
        len df = 1%nat ->
        iloc_first_item df = Return None ->
        get_start_date tomorrow s = Return "20080101") /\
    (forall df latest_date,
        is_table_exist s get_table_name = true ->
        read_sql_max get_date_column_name get_table_name s = Return df ->
        len df = 1%nat ->
        iloc_first_item df = Return (Some latest_date) ->
        get_start_date tomorrow s = tomorrow latest_date).
Proof.
  intros S store source tomorrow s. split; [reflexivity|].
  unfold get_start_date. repeat split.
  - intros ->. reflexivity.
  - intros df -> -> Hlen Hitem. simpl.
    rewrite bool_decide_eq_true_2 by exact Hlen. simpl.
    rewrite Hitem. reflexivity.
  - intros df latest_date -> -> Hlen Hitem. simpl.
    rewrite bool_decide_eq_true_2 by exact Hlen. simpl.
    rewrite Hitem. reflexivity.
Qed.

Lemma get_start_date_cases_witness :
  let start_date :=
    get_start_date (store := mem_store date_indexes) (source := TradeCalendar)
                   tomorrow in
  start_date ∅ = Return "20080101" /\
  start_date empty_calendar = Return "20080101" /\
  start_date calendar_of_three_days = Return "20080104".
Proof.
  cbv zeta. split; [|split].
  - apply (proj1 (proj2 (get_start_date_cases
                           (store := mem_store date_indexes)
                           (source := TradeCalendar) tomorrow ∅))).
    reflexivity.
  - apply (proj1 (proj2 (proj2 (get_start_date_cases
                                  (store := mem_store date_indexes)
                                  (source := TradeCalendar) tomorrow
                                  empty_calendar)))
             {| df_columns := [("max", pd_object)]; df_rows := [[None]] |});
      reflexivity.
  - change (Return "20080104") with (tomorrow "20080103").
    apply (proj2 (proj2 (proj2 (get_start_date_cases
                                  (store := mem_store date_indexes)
                                  (source := TradeCalendar) tomorrow
                                  calendar_of_three_days)))
             {| df_columns := [("max", pd_object)];
                df_rows := [[Some "20080103"]] |});
      reflexivity.
Defined.

(** *** The start date over the tables in memory *)

Lemma ascii_compare_trans (a b c : Ascii.ascii) :
  Ascii.compare a b <> Gt -> Ascii.compare b c <> Gt ->
  Ascii.compare a c <> Gt /\
  (Ascii.compare a c = Eq -> Ascii.compare a b = Eq /\ Ascii.compare b c = Eq).
Proof.
  unfold Ascii.compare.
  set (x := Ascii.N_of_ascii a). set (y := Ascii.N_of_ascii b).
  set (z := Ascii.N_of_ascii c).
  rewrite !N.compare_ngt_iff, !N.compare_eq_iff. lia.
Qed.

Lemma string_compare_trans (a : string) :
  forall b c : string,
    String.compare a b <> Gt -> String.compare b c <> Gt ->
    String.compare a c <> Gt.
Proof.
  induction a as [|x a IH]; intros [|y b] [|z c]; simpl; try congruence.
  intros Hab Hbc.
  destruct (Ascii.compare x y) eqn:Hxy; try congruence;
    destruct (Ascii.compare y z) eqn:Hyz; try congruence;
    destruct (ascii_compare_trans x y z) as [Hxz Heq];
    rewrite ?Hxy, ?Hyz; try congruence;
    destruct (Ascii.compare x z) eqn:Hxz'; try congruence;
    try (destruct (Heq eq_refl); congruence).
  eapply IH; eassumption.
Qed.

Lemma str_le_refl (a : string) : str_le a a.
Proof.
  unfold str_le. pose proof (String.compare_antisym a a) as Haa.
  destruct (String.compare a a); simpl in *; congruence.
Qed.

Lemma str_max_upper (a b : string) :
  str_le a (str_max a b) /\ str_le b (str_max a b) /\
  (str_max a b = a \/ str_max a b = b).
Proof.
  unfold str_max, String.ltb.
  pose proof (String.compare_antisym b a) as Hanti.
  destruct (String.compare a b) eqn:Hab; simpl in Hanti.
  - repeat split; [apply str_le_refl | unfold str_le; congruence | by left].
  - repeat split; [unfold str_le; congruence | apply str_le_refl | by right].
  - repeat split; [apply str_le_refl | unfold str_le; congruence | by left].
Qed.

(** [column_max] is a value of the column, and no value of the column
    comes after it; it is null only when every value is. *)
Lemma column_max_spec (cells : list cell) :
  match column_max cells with
  | Some d => Some d ∈ cells /\ forall x, Some x ∈ cells -> str_le x d
  | None => forall x, Some x ∉ cells
  end.
Proof.
  induction cells as [|[x|] cells IH]; simpl.
  - intros x Hx. by apply not_elem_of_nil in Hx.
  - destruct (column_max cells) as [m|]; simpl.
    + destruct IH as [Hin Hmax].
      destruct (str_max_upper x m) as (Hx & Hm & [Heq | Heq]);
        rewrite Heq in *.
      * split; [by left|]. intros y Hy.
        apply elem_of_cons in Hy as [[= ->] | Hy]; [exact Hx|].
        eapply string_compare_trans; [apply Hmax, Hy | exact Hm].
      * split; [by right|]. intros y Hy.
        apply elem_of_cons in Hy as [[= ->] | Hy]; [exact Hx | apply Hmax, Hy].
    + split; [by left|]. intros y Hy.
      apply elem_of_cons in Hy as [[= ->] | Hy]; [| by apply IH in Hy].
      apply str_le_refl.
  - destruct (column_max cells) as [m|].
    + destruct IH as [Hin Hmax]. split; [by right|].
      intros y Hy. apply elem_of_cons in Hy as [[=] | Hy]. by apply Hmax.
    + intros y Hy. apply elem_of_cons in Hy as [[=] | Hy]. by apply IH in Hy.
Qed.

(** Over the tables in memory: no table, no date; a table whose date
    column holds no value, the fallback; otherwise the day after the
    greatest date the column holds. *)
Lemma get_start_date_mem (ix : string -> DataFrame -> list string)
    (source : DatasetSource) (next : string -> result string)
    (db : gmap string Table) :
  (db !! get_table_name = None ->
   get_start_date (store := mem_store ix) next db = Return EALIEST_DATE) /\
  (forall tbl i,
      db !! get_table_name = Some tbl ->
      index_of get_date_column_name (map fst (tbl_columns tbl)) = Some i ->
      get_start_date (store := mem_store ix) next db =
        match column_max (column_cells i tbl) with
        | None => Return EALIEST_DATE
        | Some latest_date => next latest_date
        end) /\
  (forall tbl i,
      db !! get_table_name = Some tbl ->
      index_of get_date_column_name (map fst (tbl_columns tbl)) = Some i ->
      tbl_rows tbl = [] ->
      get_start_date (store := mem_store ix) next db = Return EALIEST_DATE).
Proof.
  assert (Hsome : forall tbl i,
      db !! get_table_name = Some tbl ->
      index_of get_date_column_name (map fst (tbl_columns tbl)) = Some i ->
      get_start_date (store := mem_store ix) next db =
        match column_max (column_cells i tbl) with
        | None => Return EALIEST_DATE
        | Some latest_date => next latest_date
        end).
  { intros tbl i Htbl Hcol. unfold get_start_date. simpl.
    unfold mem_is_table_exist, mem_read_sql_max. rewrite Htbl. simpl.
    rewrite Hcol. simpl.
    destruct (column_max (column_cells i tbl)); reflexivity. }
  split; [|split].
  - intros Hnone. unfold get_start_date. simpl. unfold mem_is_table_exist.
    rewrite Hnone. rewrite bool_decide_eq_false_2; [reflexivity|].
    intros [? [=]].
  - exact Hsome.
  - intros tbl i Htbl Hcol Hrows. rewrite (Hsome tbl i Htbl Hcol).
    unfold column_cells. rewrite Hrows. reflexivity.
Qed.

(** ** Persistence *)

(** [to_db] calls [to_sql] once, whatever happens. *)
Lemma to_db_writes_once {S : Type} {store : Store S} {source : DatasetSource}
    (df : DataFrame) (if_exists : string) (s : S) :
  writes (events (to_db df if_exists s)) = 1%nat.
Proof.
  unfold to_db.
  destruct (to_sql get_table_name df if_exists dtype_dic 1000 s) as [[[]|e] s'].
  - destruct (create_db_index get_table_name df s') as [r s'']. reflexivity.
  - reflexivity.
Qed.

(** C6: when the store's write fails inside [to_db], the failure reaches
    the caller of [to_db] as it is, and [to_db] has called the write that
    once and nothing after it: no second write, no index creation. *)
Theorem to_db_write_failure_surfaces :
  forall {S : Type} {store : Store S} {source : DatasetSource}
         (df : DataFrame) (if_exists : string) (s s' : S) (e : exn),
    to_sql get_table_name df if_exists dtype_dic 1000 s = (Raise e, s') ->
    let r := to_db df if_exists s in
    outcome r = Raise e /\
    state_after r = s' /\
    events r = [ToSql get_table_name df if_exists dtype_dic 1000] /\
    writes (events r) = 1%nat.
Proof.
  intros S store source df if_exists s s' e Hwrite r. subst r.
  unfold to_db. rewrite Hwrite. repeat split.
Qed.

Lemma to_db_write_failure_surfaces_witness :
  to_sql (Store := mem_store date_indexes) "trade_cal" three_days "fail"
         dtype_dic 1000 calendar_of_three_days
    = (Raise (ValueError "Table already exists."), calendar_of_three_days) /\
  let r := to_db (store := mem_store date_indexes) (source := TradeCalendar)
                 three_days "fail" calendar_of_three_days in
  outcome r = Raise (ValueError "Table already exists.") /\
  state_after r = calendar_of_three_days /\
  events r = [ToSql "trade_cal" three_days "fail" dtype_dic 1000] /\
  writes (events r) = 1%nat.
Proof.
  split; [reflexivity|].
  apply (to_db_write_failure_surfaces
           (store := mem_store date_indexes) (source := TradeCalendar)
           three_days "fail" calendar_of_three_days calendar_of_three_days
           (ValueError "Table already exists.")).
  reflexivity.
Defined.

(** *** What the operations in memory do to the tables *)

Lemma mem_create_db_index_frame (ix : string -> DataFrame -> list string)
    (name : string) (df : DataFrame) (db db' : gmap string Table)
    (r : result unit) :
  mem_create_db_index ix name df db = (r, db') ->
  forall n,
    tbl_rows <$> db' !! n = tbl_rows <$> db !! n /\
    tbl_columns <$> db' !! n = tbl_columns <$> db !! n.
Proof.
  unfold mem_create_db_index. intros Hix n.
  destruct (db !! name) as [tbl|] eqn:Htbl; injection Hix as <- <-;
    [|done].
  destruct (decide (n = name)) as [->|Hne].
  - rewrite lookup_insert_eq, Htbl. done.
  - rewrite lookup_insert_ne by done. done.
Qed.

Lemma mem_create_db_index_returns (ix : string -> DataFrame -> list string)
    (name : string) (df : DataFrame) (db : gmap string Table) :
  is_Some (db !! name) ->
  fst (mem_create_db_index ix name df db) = Return tt.
Proof. unfold mem_create_db_index. intros [tbl ->]. reflexivity. Qed.

(** Case analysis on the three checks [pandas_to_sql] makes before it
    looks at the table; [tac] closes the cases in which a check fails. *)
Ltac to_sql_guards tac :=
  unfold pandas_to_sql;
  intros Hw;
  destruct (negb _); [tac Hw|];
  destruct (bool_decide (_ = 0)); [tac Hw|];
  destruct (negb _); [tac Hw|].

(** A write in append mode, successful or not, keeps every row of every
    table, and every column. *)
Lemma pandas_to_sql_append (name : string) (df : DataFrame)
    (dtype : gmap string sql_type) (chunksize : Z)
    (db db' : gmap string Table) (r : result unit) :
  pandas_to_sql name df "append" dtype chunksize db = (r, db') ->
  forall n tbl,
    db !! n = Some tbl ->
    exists tbl',
      db' !! n = Some tbl' /\
      tbl_rows tbl `prefix_of` tbl_rows tbl' /\
      tbl_columns tbl' = tbl_columns tbl.
Proof.
  intros Hw n tbl Hn. revert Hw.
  assert (Hsame : forall d : gmap string Table, d = db ->
            exists tbl', d !! n = Some tbl' /\
              tbl_rows tbl `prefix_of` tbl_rows tbl' /\
              tbl_columns tbl' = tbl_columns tbl).
  { intros d ->. exists tbl. done. }
  to_sql_guards ltac:(fun H => injection H as <- <-; by apply Hsame).
  destruct (db !! name) as [old|] eqn:Hold.
  - (* the table exists: rows are added behind the old ones *)
    change (bool_decide ("append" = "fail")) with false in Hw.
    change (bool_decide ("append" = "replace")) with false in Hw.
    cbv iota in Hw.
    destruct (bool_decide _); injection Hw as <- <-; [|by apply Hsame].
    destruct (decide (n = name)) as [->|Hne].
    + rewrite lookup_insert_eq. eexists. split; [done|].
      assert (old = tbl) as -> by congruence.
      split; [|done]. simpl. by apply prefix_app_r.
    + rewrite lookup_insert_ne by done. by apply Hsame.
  - (* the table does not exist: it is created next to the others *)
    injection Hw as <- <-.
    destruct (decide (n = name)) as [->|Hne]; [congruence|].
    rewrite lookup_insert_ne by done. by apply Hsame.
Qed.

(** A write that creates the table, or replaces it, leaves exactly the
    frame. *)
Lemma pandas_to_sql_creates (name : string) (df : DataFrame)
    (if_exists : string) (dtype : gmap string sql_type) (chunksize : Z)
    (db db' : gmap string Table) :
  if_exists = "replace" \/ db !! name = None ->
  pandas_to_sql name df if_exists dtype chunksize db = (Return tt, db') ->
  db' = <[name := new_table df dtype]> db.
Proof.
  intros Hmode. to_sql_guards ltac:(fun H => discriminate H).
  destruct (db !! name) as [old|] eqn:Hold; [|by injection Hw as <-].
  destruct Hmode as [->|?]; [|discriminate].
  change (bool_decide ("replace" = "fail")) with false in Hw.
  change (bool_decide ("replace" = "replace")) with true in Hw.
  by injection Hw as <-.
Qed.

Lemma pandas_to_sql_replace_returns (name : string) (df : DataFrame)
    (dtype : gmap string sql_type) (db : gmap string Table) :
  NoDup (map fst (df_columns df)) ->
  fst (pandas_to_sql name df "replace" dtype 1000 db) = Return tt.
Proof.
  unfold pandas_to_sql. intros Hnd.
  rewrite (bool_decide_eq_true_2 _ Hnd). simpl.
  destruct (db !! name); reflexivity.
Qed.

(** A write leaves the tables as they were, or puts a fresh table in place,
    or adds rows to the table that is there. *)
Lemma pandas_to_sql_cases (name : string) (df : DataFrame) (if_exists : string)
    (dtype : gmap string sql_type) (chunksize : Z)
    (db db' : gmap string Table) (r : result unit) :
  pandas_to_sql name df if_exists dtype chunksize db = (r, db') ->
  db' = db \/
  db' = <[name := new_table df dtype]> db \/
  exists old, db !! name = Some old /\ db' = <[name := insert_rows df old]> db.
Proof.
  to_sql_guards ltac:(fun H => injection H as <- <-; by left).
  destruct (db !! name) as [old|] eqn:Hold.
  - destruct (bool_decide (if_exists = "fail")); [injection Hw as <- <-; by left|].
    destruct (bool_decide (if_exists = "replace"));
      [injection Hw as <- <-; right; by left|].
    destruct (bool_decide _); injection Hw as <- <-; [|by left].
    right; right. by exists old.
  - injection Hw as <- <-. right; by left.
Qed.

Lemma dtype_dic_fixed_width (c : string) (ty : sql_type) :
  dtype_dic !! c = Some ty ->
  exists n, ty = VARCHAR n /\ (n = 8 \/ n = 9).
Proof.
  unfold dtype_dic. intros Hc.
  apply lookup_insert_Some in Hc as [[_ <-]|[_ Hc]]; [eauto|].
  apply lookup_insert_Some in Hc as [[_ <-]|[_ Hc]]; [eauto|].
  apply lookup_singleton_Some in Hc as [_ <-]. eauto.
Qed.

Lemma new_table_columns (df : DataFrame) (dtype : gmap string sql_type)
    (c : string) (ty : sql_type) :
  (c, ty) ∈ tbl_columns (new_table df dtype) ->
  forall ty', dtype !! c = Some ty' -> ty = ty'.
Proof.
  simpl. intros Hin ty' Hty'.
  apply list_elem_of_fmap in Hin as ([c0 dt] & [= -> ->] & _).
  unfold sqlalchemy_type. simpl. by rewrite Hty'.
Qed.

Lemma new_table_has_column (df : DataFrame) (dtype : gmap string sql_type)
    (c : string) (dt : pd_dtype) (ty : sql_type) :
  (c, dt) ∈ df_columns df -> dtype !! c = Some ty ->
  (c, ty) ∈ tbl_columns (new_table df dtype).
Proof.
  simpl. intros Hin Hty. apply list_elem_of_fmap.
  exists (c, dt). split; [|exact Hin].
  unfold sqlalchemy_type. simpl. by rewrite Hty.
Qed.

Lemma pandas_to_sql_explicit_types (name : string) (df : DataFrame)
    (if_exists : string) (chunksize : Z) (db db' : gmap string Table)
    (r : result unit) :
  pandas_to_sql name df if_exists dtype_dic chunksize db = (r, db') ->
  explicit_types db -> explicit_types db'.
Proof.
  intros Hw Hdb.
  destruct (pandas_to_sql_cases _ _ _ _ _ _ _ _ Hw)
    as [-> | [-> | (old & Hold & ->)]]; [exact Hdb | |];
    intros n tbl c ty ty' Hn Hc Hty;
    (destruct (decide (n = name)) as [->|Hne];
     [rewrite lookup_insert_eq in Hn; injection Hn as <-
     |rewrite lookup_insert_ne in Hn by done; by eapply Hdb]).
  - by eapply new_table_columns.
  - by eapply (Hdb name old).
Qed.

Lemma mem_create_db_index_explicit_types (ix : string -> DataFrame -> list string)
    (name : string) (df : DataFrame) (db db' : gmap string Table)
    (r : result unit) :
  mem_create_db_index ix name df db = (r, db') ->
  explicit_types db -> explicit_types db'.
Proof.
  intros Hix Hdb n tbl c ty ty' Hn Hc Hty.
  destruct (mem_create_db_index_frame _ _ _ _ _ _ Hix n) as [_ Hcols].
  rewrite Hn in Hcols. simpl in Hcols.
  destruct (db !! n) as [old|] eqn:Hold; [|discriminate].
  injection Hcols as Hcols. rewrite Hcols in Hc. by eapply (Hdb n old).
Qed.

(** In replace mode a frame whose columns have distinct names is always
    written. *)
Lemma to_db_replace_returns (ix : string -> DataFrame -> list string)
    (source : DatasetSource) (df : DataFrame) (db : gmap string Table) :
  NoDup (map fst (df_columns df)) ->
  outcome (to_db (store := mem_store ix) df "replace" db) = Return tt.
Proof.
  intros Hnd. unfold to_db. simpl.
  pose proof (pandas_to_sql_replace_returns get_table_name df dtype_dic db Hnd)
    as Hret.
  destruct (pandas_to_sql get_table_name df "replace" dtype_dic 1000 db)
    as [r1 db1] eqn:Hw. simpl in Hret. subst r1.
  apply pandas_to_sql_creates in Hw; [|by left]. subst db1.
  pose proof (mem_create_db_index_returns ix get_table_name df
                (<[get_table_name := new_table df dtype_dic]> db)) as Hix.
  destruct (mem_create_db_index ix get_table_name df _) as [r2 db2].
  simpl in *. apply Hix. rewrite lookup_insert_eq. eauto.
Qed.

(** What [to_db] does in replace mode to a frame with distinct column
    names: the table is the frame, with the expected indexes. *)
Lemma to_db_mem_replace (ix : string -> DataFrame -> list string)
    (source : DatasetSource) (df : DataFrame) (db : gmap string Table) :
  NoDup (map fst (df_columns df)) ->
  to_db (store := mem_store ix) df "replace" db =
    Run (Return tt)
        (<[get_table_name :=
             {| tbl_columns := tbl_columns (new_table df dtype_dic);
                tbl_rows := df_rows df;
                tbl_indexes := filter (fun c => c ∉ @nil string)
                                      (ix get_table_name df) |}]> db)
        [ToSql get_table_name df "replace" dtype_dic 1000;
         CreateDbIndex get_table_name df].
Proof.
  intros Hnd. unfold to_db. simpl.
  pose proof (pandas_to_sql_replace_returns get_table_name df dtype_dic db Hnd)
    as Hret.
  destruct (pandas_to_sql get_table_name df "replace" dtype_dic 1000 db)
    as [r1 db1] eqn:Hw. simpl in Hret. subst r1.
  apply pandas_to_sql_creates in Hw; [|by left]. subst db1.
  unfold mem_create_db_index. rewrite lookup_insert_eq. simpl.
  by rewrite insert_insert_eq.
Qed.

(** What [to_db] does in append mode to a table that has the frame's
    columns: the rows go behind the rows that are there. *)
Lemma to_db_mem_append (ix : string -> DataFrame -> list string)
    (source : DatasetSource) (df : DataFrame) (db : gmap string Table)
    (tbl : Table) :
  db !! get_table_name = Some tbl ->
  NoDup (map fst (df_columns df)) ->
  map fst (df_columns df) ⊆ map fst (tbl_columns tbl) ->
  exists indexes,
    to_db (store := mem_store ix) df "append" db =
      Run (Return tt)
          (<[get_table_name :=
               {| tbl_columns := tbl_columns tbl;
                  tbl_rows := tbl_rows tbl ++ appended_rows df tbl;
                  tbl_indexes := indexes |}]> db)
          [ToSql get_table_name df "append" dtype_dic 1000;
           CreateDbIndex get_table_name df].
Proof.
  intros Htbl Hnd Hsub. unfold to_db. simpl. unfold pandas_to_sql.
  rewrite (bool_decide_eq_true_2 _ Hnd), Htbl.
  rewrite (bool_decide_eq_true_2 _ Hsub). simpl.
  unfold mem_create_db_index. rewrite lookup_insert_eq. simpl.
  eexists. by rewrite insert_insert_eq.
Qed.

(** C7: for every frame, [to_db] in append mode, which is its default,
    removes no row from any table, whether the write succeeds or not, and
    on a table that has the frame's columns it puts the frame's rows behind
    the rows that are there.  In replace mode [to_db] returns exactly for
    the frames whose columns have distinct names, and then the table holds
    the rows of the frame and nothing else, whatever it held before or
    whether it was there at all: exactly as many rows as the frame has.
    This is what [TradeCalendar.download] does with the frame the provider
    returned. *)
Theorem to_db_append_keeps_replace_resets :
  forall (ix : string -> DataFrame -> list string) (source : DatasetSource)
         (df : DataFrame) (db : gmap string Table),
    to_db_default (store := mem_store ix) df db
      = to_db (store := mem_store ix) df "append" db /\
    (forall name tbl,
        db !! name = Some tbl ->
        exists tbl',
          state_after (to_db (store := mem_store ix) df "append" db) !! name
            = Some tbl' /\
          tbl_rows tbl `prefix_of` tbl_rows tbl') /\
    (forall tbl,
        db !! get_table_name = Some tbl ->
        NoDup (map fst (df_columns df)) ->
        map fst (df_columns df) ⊆ map fst (tbl_columns tbl) ->
        outcome (to_db (store := mem_store ix) df "append" db) = Return tt /\
        exists tbl',
          state_after (to_db (store := mem_store ix) df "append" db)
            !! get_table_name = Some tbl' /\
          tbl_rows tbl' = tbl_rows tbl ++ appended_rows df tbl /\
          length (tbl_rows tbl') = (length (tbl_rows tbl) + len df)%nat) /\
    (outcome (to_db (store := mem_store ix) df "replace" db) = Return tt <->
     NoDup (map fst (df_columns df))) /\
    (NoDup (map fst (df_columns df)) ->
     exists tbl',
       state_after (to_db (store := mem_store ix) df "replace" db)
         !! get_table_name = Some tbl' /\
       tbl_rows tbl' = df_rows df /\
       length (tbl_rows tbl') = len df) /\
    (forall (W : Type) (trade_cal : callable W DataFrame) (w w' : W),
        trade_cal [] w = (Return df, w') ->
        NoDup (map fst (df_columns df)) ->
        let r := download (store := mem_store ix) trade_cal (w, db) in
        outcome r = Return tt /\
        exists tbl',
          snd (state_after r) !! "trade_cal" = Some tbl' /\
          tbl_rows tbl' = df_rows df /\
          length (tbl_rows tbl') = len df).
Proof.
  intros ix source df db.
  split; [reflexivity|]. split; [|split; [|split; [|split]]].
  - intros name tbl Hname. unfold to_db. simpl.
    destruct (pandas_to_sql get_table_name df "append" dtype_dic 1000 db)
      as [[[]|e] db1] eqn:Hw;
      destruct (pandas_to_sql_append _ _ _ _ _ _ _ Hw name tbl Hname)
        as (tbl1 & Htbl1 & Hpre & _); [|by exists tbl1].
    destruct (mem_create_db_index ix get_table_name df db1) as [r db2] eqn:Hix.
    simpl.
    destruct (mem_create_db_index_frame _ _ _ _ _ _ Hix name) as [Hrows _].
    rewrite Htbl1 in Hrows. simpl in Hrows.
    destruct (db2 !! name) as [tbl2|]; [|discriminate].
    injection Hrows as Hrows. exists tbl2. by rewrite Hrows.
  - intros tbl Htbl Hnd Hsub.
    destruct (to_db_mem_append ix source df db tbl Htbl Hnd Hsub) as [ix1 ->].
    cbn [outcome state_after]. split; [reflexivity|].
    eexists. rewrite lookup_insert_eq. split; [reflexivity|].
    cbn [tbl_rows]. split; [reflexivity|].
    rewrite length_app. unfold appended_rows, len. by rewrite length_map.
  - split.
    + intros Hret. destruct (decide (NoDup (map fst (df_columns df))))
        as [Hnd|Hdup]; [exact Hnd|].
      exfalso. revert Hret. unfold to_db. simpl. unfold pandas_to_sql.
      rewrite (bool_decide_eq_false_2 _ Hdup). simpl. discriminate.
    + intros Hnd. by rewrite to_db_mem_replace.
  - intros Hnd. rewrite to_db_mem_replace by exact Hnd.
    cbn [state_after]. eexists. rewrite lookup_insert_eq. done.
  - intros W trade_cal w w' Hcall Hnd r. subst r. unfold download. simpl.
    rewrite Hcall. rewrite (to_db_mem_replace ix TradeCalendar df db Hnd).
    cbn [outcome state_after snd]. split; [reflexivity|].
    eexists. rewrite lookup_insert_eq. done.
Qed.

Lemma to_db_append_keeps_replace_resets_witness :
  calendar_of_three_days !! "trade_cal" = Some three_days_table /\
  tbl_rows three_days_table = df_rows three_days /\
  (let r := to_db (store := mem_store date_indexes) (source := TradeCalendar)
                  later_days "append" calendar_of_three_days in
   outcome r = Return tt /\
   exists tbl',
     state_after r !! "trade_cal" = Some tbl' /\
     tbl_rows tbl' = df_rows three_days ++ df_rows later_days /\
     length (tbl_rows tbl') = 5%nat) /\
  (let r := to_db (store := mem_store date_indexes) (source := TradeCalendar)
                  later_days "replace" calendar_of_three_days in
   outcome r = Return tt /\
   exists tbl',
     state_after r !! "trade_cal" = Some tbl' /\
     tbl_rows tbl' = df_rows later_days /\
     length (tbl_rows tbl') = 2%nat) /\
  (let r := download (store := mem_store date_indexes) (returns later_days)
                     (tt, calendar_of_three_days) in
   outcome r = Return tt /\
   exists tbl',
     snd (state_after r) !! "trade_cal" = Some tbl' /\
     tbl_rows tbl' = df_rows later_days /\
     length (tbl_rows tbl') = 2%nat).
Proof.
  assert (Hnd : NoDup (map fst (df_columns later_days))).
  { apply (bool_decide_unpack _). vm_compute. exact I. }
  assert (Hsub : map fst (df_columns later_days)
                   ⊆ map fst (tbl_columns three_days_table)).
  { apply (bool_decide_unpack _). vm_compute. exact I. }
  pose proof (to_db_append_keeps_replace_resets date_indexes TradeCalendar
                later_days calendar_of_three_days)
    as (_ & _ & Happend & Hiff & Hreplace & Hdl).
  split; [reflexivity|]. split; [reflexivity|]. split; [|split].
  - apply (Happend three_days_table eq_refl Hnd Hsub).
  - split; [apply Hiff, Hnd | apply Hreplace, Hnd].
  - apply (Hdl unit (returns later_days) tt tt eq_refl Hnd).
Defined.

(** C8: every write of [to_db] hands [to_sql] an explicit type of fixed
    width, [VARCHAR(9)] or [VARCHAR(8)], for each of the fields [ts_code],
    [trade_date] and [ann_date], whatever the frame holds.  A table that
    the write creates, or replaces, has these fields as columns of that
    type, which is never the type pandas would have inferred; and tables
    whose fields of these names have these types keep them through every
    write. *)
Theorem to_db_writes_explicit_types :
  forall (ix : string -> DataFrame -> list string) (source : DatasetSource)
         (df : DataFrame) (if_exists : string) (db : gmap string Table),
    let r := to_db (store := mem_store ix) df if_exists db in
    (dtype_dic !! "ts_code" = Some (VARCHAR 9) /\
     dtype_dic !! "trade_date" = Some (VARCHAR 8) /\
     dtype_dic !! "ann_date" = Some (VARCHAR 8)) /\
    head (events r) = Some (ToSql get_table_name df if_exists dtype_dic 1000) /\
    (explicit_types db -> explicit_types (state_after r)) /\
    (if_exists = "replace" \/ db !! get_table_name = None ->
     outcome r = Return tt ->
     exists tbl,
       state_after r !! get_table_name = Some tbl /\
       forall c dt ty,
         (c, dt) ∈ df_columns df ->
         dtype_dic !! c = Some ty ->
         (c, ty) ∈ tbl_columns tbl /\
         (exists n, ty = VARCHAR n) /\
         ty <> inferred_type dt).
Proof.
  intros ix source df if_exists db r. subst r.
  split; [repeat split|].
  unfold to_db. simpl.
  destruct (pandas_to_sql get_table_name df if_exists dtype_dic 1000 db)
    as [[[]|e] db1] eqn:Hw.
  - destruct (mem_create_db_index ix get_table_name df db1) as [r db2] eqn:Hix.
    simpl. split; [reflexivity|]. split.
    + intros Hdb. eapply mem_create_db_index_explicit_types; [exact Hix|].
      eapply pandas_to_sql_explicit_types; eassumption.
    + intros Hmode _. apply pandas_to_sql_creates in Hw; [|exact Hmode].
      subst db1.
      destruct (mem_create_db_index_frame _ _ _ _ _ _ Hix get_table_name)
        as [_ Hcols].
      rewrite lookup_insert_eq in Hcols. simpl in Hcols.
      destruct (db2 !! get_table_name) as [tbl|]; [|discriminate].
      injection Hcols as Hcols. exists tbl. split; [reflexivity|].
      intros c dt ty Hc Hty. rewrite Hcols.
      split; [by eapply new_table_has_column|].
      destruct (dtype_dic_fixed_width c ty Hty) as (n & -> & _).
      split; [eauto | by destruct dt].
  - simpl. split; [reflexivity|]. split; [|discriminate].
    intros Hdb. eapply pandas_to_sql_explicit_types; eassumption.
Qed.

Lemma to_db_writes_explicit_types_witness :
  let r := to_db (store := mem_store date_indexes) (source := TradeCalendar)
                 two_quotes "append" ∅ in
  explicit_types (state_after r) /\
  exists tbl,
    state_after r !! "trade_cal" = Some tbl /\
    tbl_columns tbl = [("ts_code", VARCHAR 9); ("trade_date", VARCHAR 8);
                       ("close", FLOAT)] /\
    forall c dt ty,
      (c, dt) ∈ df_columns two_quotes ->
      dtype_dic !! c = Some ty ->
      (c, ty) ∈ tbl_columns tbl /\
      (exists n, ty = VARCHAR n) /\
      ty <> inferred_type dt.
Proof.
  pose proof (to_db_writes_explicit_types date_indexes TradeCalendar
                two_quotes "append" ∅) as (_ & _ & Hinv & Hnew).
  cbv zeta. split.
  - apply Hinv. intros name tbl c ty ty' Hname. by rewrite lookup_empty in Hname.
  - destruct Hnew as (tbl & Htbl & Hcols); [by right | reflexivity |].
    exists tbl. split; [exact Htbl|]. split; [|exact Hcols].
    vm_compute in Htbl. injection Htbl as <-. reflexivity.
Defined.

(** ** One cycle, end to end *)

(** An empty store, a provider that returns three days: after the download
    the table has three rows and the next start date is the fourth day. *)
Example download_then_start_date :
  let r := download (store := mem_store date_indexes) (returns three_days) (tt, ∅) in
  outcome r = Return tt /\
  tbl_rows <$> snd (state_after r) !! "trade_cal" = Some (df_rows three_days) /\
  get_start_date (store := mem_store date_indexes) (source := TradeCalendar)
                 tomorrow ∅ = Return "20080101" /\
  get_start_date (store := mem_store date_indexes) (source := TradeCalendar)
                 tomorrow (snd (state_after r)) = Return "20080104".
Proof. repeat split. Qed.

(** * Further properties of the download base class *)

(** ** Every run of the retry loop *)

Lemma total_sleep_failed_attempts_from (kw : kwargs) (k : nat) :
  forall c, 0 <= c ->
    total_sleep (failed_attempts kw c k) = (2 ^ (c + Z.of_nat k) - 2 ^ c) * 30.
Proof.
  induction k as [|k IH]; intros c Hc.
  - unfold total_sleep. simpl. rewrite Z.add_0_r. lia.
  - change (total_sleep (failed_attempts kw c (Datatypes.S k)))
      with (2 ^ c * 30 + total_sleep (failed_attempts kw (c + 1) k)).
    rewrite IH by lia.
    replace (c + Z.of_nat (Datatypes.S k)) with (c + 1 + Z.of_nat k) by lia.
    rewrite (Z.pow_add_r 2 c 1) by lia. lia.
Qed.

(** Every run of [retry_call]: [k] failed attempts, then a successful one
    or the [raise]. *)
Lemma retry_call_runs :
  forall {W D : Type} (func : callable W D) (kw : kwargs)
         (self : BaseDownload) (w : W),
    let c := retry_count self in
    exists (k : nat) (wk : W),
      fails_times func kw k w = Some wk /\
      ((exists df w',
           c + Z.of_nat k < RETRY /\
           func kw wk = (Return df, w') /\
           retry_call func kw self w =
             Run (Return df) (set_retry_count 0 self, w')
                 (failed_attempts kw c k ++ [Call kw])) \/
       (RETRY <= c + Z.of_nat k /\
        (k = O \/ c + Z.of_nat k = RETRY) /\
        retry_call func kw self w =
          Run (Raise (RuntimeError exhausted_message))
              (set_retry_count (c + Z.of_nat k) self, wk)
              (failed_attempts kw c k))).
Proof.
  intros W D func kw self w c. subst c.
  remember (Z.to_nat (RETRY - retry_count self)) as n eqn:Hn.
  revert self w Hn. induction n as [|n IH]; intros self w Hn.
  - exists O, w. split; [reflexivity|]. right.
    split; [simpl; lia|]. split; [by left|].
    rewrite retry_call_exhausted by lia.
    simpl. rewrite Z.add_0_r, set_retry_count_same. reflexivity.
  - destruct (func kw w) as [[df|e] w1] eqn:Hcall.
    + exists O, w. split; [reflexivity|]. left. exists df, w1.
      split; [simpl; lia|]. split; [exact Hcall|].
      apply retry_call_returns; [lia | exact Hcall].
    + destruct (IH (set_retry_count (retry_count self + 1) self) w1)
        as (k & wk & Hfail & Hrun); [simpl; lia|].
      exists (Datatypes.S k), wk. simpl in Hrun.
      split; [simpl; by rewrite Hcall|].
      rewrite (retry_call_raises func kw self w w1 e) by (lia || assumption).
      replace (retry_count self + Z.of_nat (Datatypes.S k))
        with (retry_count self + 1 + Z.of_nat k) by lia.
      destruct Hrun as [(df & w' & Hlt & Hok & ->) | (Hge & Hk & ->)].
      * left. exists df, w'. repeat split; [lia | exact Hok].
      * right. split; [lia|]. split; [right; lia | reflexivity].
Qed.

(** X1: every run of [retry_call] is a number of failed attempts, each with
    the caller's keyword arguments and followed by its backoff sleep, and
    then either one more attempt, whose value is returned with the count
    back at zero, or the [RuntimeError], with the count at the maximum or
    beyond.  The provider is left as the last attempt left it. *)
Theorem retry_call_shape :
  forall {W D : Type} (func : callable W D) (kw : kwargs)
         (self : BaseDownload) (w : W),
    let r := retry_call func kw self w in
    exists k : nat,
      match outcome r with
      | Return df =>
          events r = failed_attempts kw (retry_count self) k ++ [Call kw] /\
          retry_count self + Z.of_nat k < RETRY /\
          retry_count (self_after r) = 0 /\
          exists wk, fails_times func kw k w = Some wk /\
                     func kw wk = (Return df, world_after r)
      | Raise e =>
          events r = failed_attempts kw (retry_count self) k /\
          e = RuntimeError exhausted_message /\
          RETRY <= retry_count (self_after r) /\
          fails_times func kw k w = Some (world_after r)
      end.
Proof.
  intros W D func kw self w r. subst r.
  destruct (retry_call_runs func kw self w)
    as (k & wk & Hfail & [(df & w' & Hlt & Hok & ->) | (Hge & _ & ->)]);
    exists k; unfold self_after, world_after; simpl.
  - split_and!; try done. by exists wk.
  - by split_and!.
Qed.

(** X2: on an instance whose count is not negative, one invocation of
    [retry_call] calls the provider at most 5 times and sleeps at most
    930 seconds in all, whatever the provider does. *)
Theorem retry_call_bounded :
  forall {W D : Type} (func : callable W D) (kw : kwargs)
         (self : BaseDownload) (w : W),
    0 <= retry_count self ->
    let r := retry_call func kw self w in
    (attempts (events r) <= 5)%nat /\
    0 <= total_sleep (events r) <= 930.
Proof.
  intros W D func kw self w Hc r. subst r.
  destruct (retry_call_runs func kw self w)
    as (k & wk & _ & [(df & w' & Hlt & _ & ->) | (Hge & Hk & ->)]);
    simpl events; unfold RETRY in *.
  - rewrite attempts_app, attempts_failed_attempts.
    change (attempts [Call kw]) with 1%nat. split; [lia|].
    unfold total_sleep. rewrite sleeps_app. simpl. rewrite app_nil_r.
    change (foldr Z.add 0 (sleeps (failed_attempts kw (retry_count self) k)))
      with (total_sleep (failed_attempts kw (retry_count self) k)).
    rewrite total_sleep_failed_attempts_from by lia.
    pose proof (Z.pow_le_mono_r 2 (retry_count self + Z.of_nat k) 5).
    pose proof (Z.pow_le_mono_r 2 (retry_count self) (retry_count self + Z.of_nat k)).
    pose proof (Z.pow_pos_nonneg 2 (retry_count self)).
    change (2 ^ 5) with 32 in *. lia.
  - rewrite attempts_failed_attempts. split; [lia|].
    rewrite total_sleep_failed_attempts_from by lia.
    destruct Hk as [-> | Hk].
    + simpl. rewrite Z.add_0_r. lia.
    + rewrite Hk.
      pose proof (Z.pow_pos_nonneg 2 (retry_count self)).
      pose proof (Z.pow_le_mono_r 2 (retry_count self) 5).
      change (2 ^ 5) with 32 in *. lia.
Qed.

Lemma retry_call_bounded_witness :
  0 <= retry_count BaseDownload_init /\
  let r := retry_call (flaky 3 quota_error two_quotes) [] BaseDownload_init 0%nat in
  (attempts (events r) <= 5)%nat /\
  0 <= total_sleep (events r) <= 930.
Proof.
  split; [discriminate|].
  apply (retry_call_bounded (flaky 3 quota_error two_quotes) []
           BaseDownload_init 0%nat).
  discriminate.
Defined.

(** X3: [retry_call] returns a value exactly when one of the attempts the
    budget still allows succeeds, and the value is that attempt's. *)
Theorem retry_call_returns_iff :
  forall {W D : Type} (func : callable W D) (kw : kwargs)
         (self : BaseDownload) (w : W) (df : D),
    outcome (retry_call func kw self w) = Return df <->
    exists (k : nat) (w' : W),
      retry_count self + Z.of_nat k < RETRY /\
      fails_then_succeeds func kw k w df w'.
Proof.
  intros W D func kw self w df. split.
  - intros Hret.
    destruct (retry_call_runs func kw self w)
      as (k & wk & Hfail & [(df' & w' & Hlt & Hok & Hrun) | (_ & _ & Hrun)]);
      rewrite Hrun in Hret; simpl in Hret; [|discriminate].
    injection Hret as ->. exists k, w'. split; [exact Hlt|].
    exists wk. split; assumption.
  - intros (k & w' & Hlt & wk & Hfail & Hok).
    rewrite (retry_call_fails_times func kw k self w wk) by (lia || assumption).
    rewrite (retry_call_returns func kw _ wk w' df) by (simpl; lia || assumption).
    reflexivity.
Qed.

(** X4: between calls the attempt count is always 0 or [RETRY]: starting
    from either, every [retry_call] of a sequence ends in one of the two,
    and none of them changes [save_dir] or [call_interval]. *)
Theorem retry_calls_keep_count_zero_or_max :
  forall {W D : Type} (calls : list (callable W D * kwargs))
         (self : BaseDownload) (w : W),
    retry_count self = 0 \/ retry_count self = RETRY ->
    Forall (fun r =>
              (retry_count (self_after r) = 0 \/
               retry_count (self_after r) = RETRY) /\
              save_dir (self_after r) = save_dir self /\
              call_interval (self_after r) = call_interval self)
           (retry_calls calls self w).
Proof.
  intros W D calls. induction calls as [|[func kw] calls IH]; intros self w Hc.
  - constructor.
  - simpl.
    assert (Hstep :
      (retry_count (self_after (retry_call func kw self w)) = 0 \/
       retry_count (self_after (retry_call func kw self w)) = RETRY) /\
      save_dir (self_after (retry_call func kw self w)) = save_dir self /\
      call_interval (self_after (retry_call func kw self w)) = call_interval self).
    { destruct (retry_call_runs func kw self w)
        as (k & wk & _ & [(df & w' & _ & _ & ->) | (Hge & Hk & ->)]);
        unfold self_after; simpl; (split; [|done]).
      - by left.
      - right. destruct Hk as [-> | Hk]; [|exact Hk].
        simpl in *. unfold RETRY in *. lia. }
    constructor; [exact Hstep|].
    destruct Hstep as (Hc' & Hdir & Hint).
    eapply Forall_impl; [apply IH; exact Hc'|].
    intros r (? & ? & ?). simpl in *.
    split; [assumption|]. split; congruence.
Qed.

Lemma retry_calls_keep_count_zero_or_max_witness :
  (retry_count BaseDownload_init = 0 \/ retry_count BaseDownload_init = RETRY) /\
  Forall (fun r =>
            (retry_count (self_after r) = 0 \/
             retry_count (self_after r) = RETRY) /\
            save_dir (self_after r) = save_dir BaseDownload_init /\
            call_interval (self_after r) = call_interval BaseDownload_init)
         (retry_calls [(flaky 2 quota_error two_quotes, []);
                       (flaky 9 network_error two_quotes, [("ts_code", "000001.SZ")]);
                       (flaky 0 quota_error two_quotes, [])]
                      BaseDownload_init 0%nat).
Proof.
  split; [by left|].
  apply (retry_calls_keep_count_zero_or_max
           [(flaky 2 quota_error two_quotes, []);
            (flaky 9 network_error two_quotes, [("ts_code", "000001.SZ")]);
            (flaky 0 quota_error two_quotes, [])]
           BaseDownload_init 0%nat).
  by left.
Defined.

(** X5: the backoff starts afresh after a success.  When a call has
    returned after [k1] failures, the next call on the same instance, if
    its provider fails [k2] times and then succeeds, sleeps the sum of
    [2^i * 30] for [i] below [k2]: nothing of the first call's delays is
    carried over. *)
Theorem backoff_restarts_after_success :
  forall {W D : Type} (f g : callable W D) (kw1 kw2 : kwargs) (k1 k2 : nat)
         (self : BaseDownload) (w w1 w2 : W) (df1 df2 : D),
    retry_count self = 0 ->
    Z.of_nat k1 < RETRY -> Z.of_nat k2 < RETRY ->
    fails_then_succeeds f kw1 k1 w df1 w1 ->
    fails_then_succeeds g kw2 k2 w1 df2 w2 ->
    exists r1 r2,
      retry_calls [(f, kw1); (g, kw2)] self w = [r1; r2] /\
      outcome r1 = Return df1 /\ total_sleep (events r1) = backoff_sum 30 k1 /\
      outcome r2 = Return df2 /\ total_sleep (events r2) = backoff_sum 30 k2 /\
      world_after r2 = w2.
Proof.
  intros W D f g kw1 kw2 k1 k2 self w w1 w2 df1 df2 H0 Hk1 Hk2 Hf Hg.
  eexists _, _. split; [reflexivity|].
  rewrite (retry_call_fails_then_succeeds f kw1 k1 self w w1 df1 H0 Hk1 Hf).
  unfold self_after, world_after. simpl.
  rewrite (retry_call_fails_then_succeeds g kw2 k2 (set_retry_count 0 self)
             w1 w2 df2 eq_refl Hk2 Hg).
  simpl. repeat split; by apply total_sleep_failed_attempts.
Qed.

Lemma backoff_restarts_after_success_witness :
  retry_count BaseDownload_init = 0 /\
  Z.of_nat 2 < RETRY /\ Z.of_nat 1 < RETRY /\
  fails_then_succeeds (flaky 2 quota_error two_quotes) [] 2 0%nat two_quotes 3%nat /\
  fails_then_succeeds (flaky 4 network_error three_days) [] 1 3%nat three_days 5%nat /\
  exists r1 r2,
    retry_calls [(flaky 2 quota_error two_quotes, []);
                 (flaky 4 network_error three_days, [])] BaseDownload_init 0%nat
      = [r1; r2] /\
    outcome r1 = Return two_quotes /\ total_sleep (events r1) = backoff_sum 30 2 /\
    outcome r2 = Return three_days /\ total_sleep (events r2) = backoff_sum 30 1 /\
    world_after r2 = 5%nat.
Proof.
  assert (H1 : fails_then_succeeds (flaky 2 quota_error two_quotes) []
                                   2 0%nat two_quotes 3%nat).
  { exists 2%nat. split; reflexivity. }
  assert (H2 : fails_then_succeeds (flaky 4 network_error three_days) []
                                   1 3%nat three_days 5%nat).
  { exists 4%nat. split; reflexivity. }
  repeat (split; [first [reflexivity | exact H1 | exact H2]|]).
  apply (backoff_restarts_after_success
           (flaky 2 quota_error two_quotes) (flaky 4 network_error three_days)
           [] [] 2 1 BaseDownload_init 0%nat 3%nat 5%nat two_quotes three_days);
    first [reflexivity | exact H1 | exact H2].
Defined.

(** ** Persistence over the tables in memory *)

Lemma mem_create_db_index_other (ix : string -> DataFrame -> list string)
    (name : string) (df : DataFrame) (db db' : gmap string Table)
    (r : result unit) :
  mem_create_db_index ix name df db = (r, db') ->
  forall n, n <> name -> db' !! n = db !! n.
Proof.
  unfold mem_create_db_index. intros Hix n Hne.
  destruct (db !! name) as [tbl|]; injection Hix as <- <-; [|done].
  by rewrite lookup_insert_ne.
Qed.

Lemma pandas_to_sql_other (name : string) (df : DataFrame) (if_exists : string)
    (dtype : gmap string sql_type) (chunksize : Z)
    (db db' : gmap string Table) (r : result unit) :
  pandas_to_sql name df if_exists dtype chunksize db = (r, db') ->
  forall n, n <> name -> db' !! n = db !! n.
Proof.
  intros Hw n Hne.
  destruct (pandas_to_sql_cases _ _ _ _ _ _ _ _ Hw)
    as [-> | [-> | (old & _ & ->)]]; [done | |]; by rewrite lookup_insert_ne.
Qed.

(** X6: [to_db] touches the table of its own dataset only: whatever the
    frame, the mode and the outcome, every other table of the store is
    afterwards what it was before. *)
Theorem to_db_leaves_other_tables :
  forall (ix : string -> DataFrame -> list string) (source : DatasetSource)
         (df : DataFrame) (if_exists : string) (db : gmap string Table)
         (name : string),
    name <> get_table_name ->
    state_after (to_db (store := mem_store ix) df if_exists db) !! name
      = db !! name.
Proof.
  intros ix source df if_exists db name Hne. unfold to_db. simpl.
  destruct (pandas_to_sql get_table_name df if_exists dtype_dic 1000 db)
    as [[[]|e] db1] eqn:Hw.
  - destruct (mem_create_db_index ix get_table_name df db1) as [r db2] eqn:Hix.
    simpl. rewrite (mem_create_db_index_other _ _ _ _ _ _ Hix name Hne).
    by eapply pandas_to_sql_other.
  - simpl. by eapply pandas_to_sql_other.
Qed.

Lemma to_db_leaves_other_tables_witness :
  "trade_cal" <> get_table_name (DatasetSource := daily_quotes) /\
  state_after (to_db (store := mem_store date_indexes) (source := daily_quotes)
                     two_quotes "replace" calendar_of_three_days) !! "trade_cal"
    = calendar_of_three_days !! "trade_cal".
Proof.
  split; [discriminate|].
  apply (to_db_leaves_other_tables date_indexes daily_quotes two_quotes
           "replace" calendar_of_three_days "trade_cal").
  discriminate.
Defined.

(** X7: writing in replace mode is idempotent: a second [to_db] of the same
    frame leaves the store exactly as the first left it, whatever was in
    the table before. *)
Theorem to_db_replace_idempotent :
  forall (ix : string -> DataFrame -> list string) (source : DatasetSource)
         (df : DataFrame) (db : gmap string Table),
    NoDup (map fst (df_columns df)) ->
    let once := to_db (store := mem_store ix) df "replace" db in
    let twice := to_db (store := mem_store ix) df "replace" (state_after once) in
    outcome twice = Return tt /\ state_after twice = state_after once.
Proof.
  intros ix source df db Hnd once twice. subst once twice.
  rewrite !to_db_mem_replace by exact Hnd. simpl.
  split; [reflexivity|]. by rewrite insert_insert_eq.
Qed.

Lemma to_db_replace_idempotent_witness :
  NoDup (map fst (df_columns three_days)) /\
  let once := to_db (store := mem_store date_indexes) (source := TradeCalendar)
                    three_days "replace" empty_calendar in
  let twice := to_db (store := mem_store date_indexes) (source := TradeCalendar)
                     three_days "replace" (state_after once) in
  outcome twice = Return tt /\ state_after twice = state_after once.
Proof.
  assert (Hnd : NoDup (map fst (df_columns three_days))).
  { apply (bool_decide_unpack _). vm_compute. exact I. }
  split; [exact Hnd|].
  apply (to_db_replace_idempotent date_indexes TradeCalendar three_days
           empty_calendar Hnd).
Defined.

(** X8: append mode does not deduplicate.  On a table that has the frame's
    columns, writing the same frame twice succeeds twice and leaves the old
    rows followed by the frame's rows and the frame's rows again. *)
Theorem to_db_append_twice_duplicates :
  forall (ix : string -> DataFrame -> list string) (source : DatasetSource)
         (df : DataFrame) (db : gmap string Table) (tbl : Table),
    db !! get_table_name = Some tbl ->
    NoDup (map fst (df_columns df)) ->
    map fst (df_columns df) ⊆ map fst (tbl_columns tbl) ->
    let once := to_db (store := mem_store ix) df "append" db in
    let twice := to_db (store := mem_store ix) df "append" (state_after once) in
    outcome once = Return tt /\ outcome twice = Return tt /\
    exists tbl2,
      state_after twice !! get_table_name = Some tbl2 /\
      tbl_rows tbl2 = tbl_rows tbl ++ appended_rows df tbl ++ appended_rows df tbl /\
      length (tbl_rows tbl2) = (length (tbl_rows tbl) + 2 * len df)%nat.
Proof.
  intros ix source df db tbl Htbl Hnd Hsub once twice. subst once twice.
  destruct (to_db_mem_append ix source df db tbl Htbl Hnd Hsub) as [ix1 ->].
  simpl.
  destruct (to_db_mem_append ix source df
              (<[get_table_name :=
                   {| tbl_columns := tbl_columns tbl;
                      tbl_rows := tbl_rows tbl ++ appended_rows df tbl;
                      tbl_indexes := ix1 |}]> db)
              {| tbl_columns := tbl_columns tbl;
                 tbl_rows := tbl_rows tbl ++ appended_rows df tbl;
                 tbl_indexes := ix1 |})
    as [ix2 ->]; [by rewrite lookup_insert_eq | exact Hnd | exact Hsub |].
  simpl. repeat split. eexists. rewrite lookup_insert_eq.
  split; [reflexivity|]. simpl. unfold appended_rows at 2. simpl.
  fold (appended_rows df tbl). split; [by rewrite app_assoc|].
  rewrite !length_app. unfold appended_rows, len. rewrite !length_map. lia.
Qed.

Lemma to_db_append_twice_duplicates_witness :
  calendar_of_three_days !! "trade_cal" = Some three_days_table /\
  NoDup (map fst (df_columns three_days)) /\
  map fst (df_columns three_days) ⊆ map fst (tbl_columns three_days_table) /\
  let once := to_db (store := mem_store date_indexes) (source := TradeCalendar)
                    three_days "append" calendar_of_three_days in
  let twice := to_db (store := mem_store date_indexes) (source := TradeCalendar)
                     three_days "append" (state_after once) in
  outcome once = Return tt /\ outcome twice = Return tt /\
  exists tbl2,
    state_after twice !! "trade_cal" = Some tbl2 /\
    tbl_rows tbl2 = tbl_rows three_days_table
                      ++ appended_rows three_days three_days_table
                      ++ appended_rows three_days three_days_table /\
    length (tbl_rows tbl2) = (length (tbl_rows three_days_table) + 2 * len three_days)%nat.
Proof.
  assert (Hnd : NoDup (map fst (df_columns three_days))).
  { apply (bool_decide_unpack _). vm_compute. exact I. }
  assert (Hsub : map fst (df_columns three_days)
                   ⊆ map fst (tbl_columns three_days_table)).
  { apply (bool_decide_unpack _). vm_compute. exact I. }
  split; [reflexivity|]. split; [exact Hnd|]. split; [exact Hsub|].
  apply (to_db_append_twice_duplicates date_indexes TradeCalendar three_days
           calendar_of_three_days three_days_table eq_refl Hnd Hsub).
Defined.

(** ** From a write to the next start date *)

Lemma new_table_column_names (df : DataFrame) (dtype : gmap string sql_type) :
  map fst (tbl_columns (new_table df dtype)) = map fst (df_columns df).
Proof. simpl. rewrite map_map. reflexivity. Qed.

(** X9: a write in replace mode sets the next start date: after it,
    [get_start_date] returns the day after the greatest date the frame
    holds in the date column, and the fallback date when the frame holds
    none there; what the table held before plays no part. *)
Theorem start_date_after_replace :
  forall (ix : string -> DataFrame -> list string) (source : DatasetSource)
         (next_date : string -> result string) (df : DataFrame)
         (db : gmap string Table) (i : nat),
    NoDup (map fst (df_columns df)) ->
    index_of get_date_column_name (map fst (df_columns df)) = Some i ->
    get_start_date (store := mem_store ix) next_date
                   (state_after (to_db (store := mem_store ix) df "replace" db))
      = match column_max (frame_cells i df) with
        | Some latest_date => next_date latest_date
        | None => Return EALIEST_DATE
        end /\
    match column_max (frame_cells i df) with
    | Some latest_date =>
        Some latest_date ∈ frame_cells i df /\
        forall x, Some x ∈ frame_cells i df -> str_le x latest_date
    | None => forall x, Some x ∉ frame_cells i df
    end.
Proof.
  intros ix source next_date df db i Hnd Hi.
  split; [|apply column_max_spec].
  rewrite to_db_mem_replace by exact Hnd. cbn [state_after].
  set (tbl := {| tbl_columns := tbl_columns (new_table df dtype_dic);
                 tbl_rows := df_rows df;
                 tbl_indexes := filter (fun c => c ∉ @nil string)
                                       (ix get_table_name df) |}).
  destruct (get_start_date_mem ix source next_date (<[get_table_name := tbl]> db))
    as (_ & Hsome & _).
  rewrite (Hsome tbl i); [reflexivity | by rewrite lookup_insert_eq |].
  unfold tbl. cbn [tbl_columns].
  rewrite <- Hi. f_equal. apply new_table_column_names.
Qed.

Lemma start_date_after_replace_witness :
  NoDup (map fst (df_columns three_days)) /\
  index_of "cal_date" (map fst (df_columns three_days)) = Some 1%nat /\
  get_start_date (store := mem_store date_indexes) (source := TradeCalendar)
                 tomorrow
                 (state_after (to_db (store := mem_store date_indexes)
                                     (source := TradeCalendar)
                                     three_days "replace" empty_calendar))
    = Return "20080104".
Proof.
  assert (Hnd : NoDup (map fst (df_columns three_days))).
  { apply (bool_decide_unpack _). vm_compute. exact I. }
  split; [exact Hnd|]. split; [reflexivity|].
  apply (proj1 (start_date_after_replace date_indexes TradeCalendar tomorrow
                  three_days empty_calendar 1 Hnd eq_refl)).
Defined.

(** X10: appending never moves the start date back.  When the table has a
    greatest date [d1] and a frame is appended to it, the table has a
    greatest date [d2] afterwards that does not come before [d1], and
    [get_start_date] goes from the day after [d1] to the day after [d2]. *)
Theorem start_date_advances_under_append :
  forall (ix : string -> DataFrame -> list string) (source : DatasetSource)
         (next_date : string -> result string) (df : DataFrame)
         (db : gmap string Table) (tbl : Table) (i : nat) (d1 : string),
    db !! get_table_name = Some tbl ->
    NoDup (map fst (df_columns df)) ->
    map fst (df_columns df) ⊆ map fst (tbl_columns tbl) ->
    index_of get_date_column_name (map fst (tbl_columns tbl)) = Some i ->
    column_max (column_cells i tbl) = Some d1 ->
    exists d2,
      get_start_date (store := mem_store ix) next_date db = next_date d1 /\
      get_start_date (store := mem_store ix) next_date
                     (state_after (to_db (store := mem_store ix) df "append" db))
        = next_date d2 /\
      str_le d1 d2.
Proof.
  intros ix source next_date df db tbl i d1 Htbl Hnd Hsub Hi Hmax.
  destruct (to_db_mem_append ix source df db tbl Htbl Hnd Hsub) as [ix1 ->].
  cbn [state_after].
  set (tbl' := {| tbl_columns := tbl_columns tbl;
                  tbl_rows := tbl_rows tbl ++ appended_rows df tbl;
                  tbl_indexes := ix1 |}).
  pose proof (column_max_spec (column_cells i tbl)) as Hold.
  rewrite Hmax in Hold. destruct Hold as [Hin _].
  assert (Hin' : Some d1 ∈ column_cells i tbl').
  { unfold column_cells, tbl'. simpl. rewrite map_app.
    apply elem_of_app. by left. }
  pose proof (column_max_spec (column_cells i tbl')) as Hnew.
  destruct (column_max (column_cells i tbl')) as [d2|] eqn:Hmax';
    [|by apply Hnew in Hin'].
  exists d2.
  destruct (get_start_date_mem ix source next_date db) as (_ & Hbefore & _).
  destruct (get_start_date_mem ix source next_date (<[get_table_name := tbl']> db))
    as (_ & Hafter & _).
  rewrite (Hbefore tbl i Htbl Hi), Hmax.
  rewrite (Hafter tbl' i); [| by rewrite lookup_insert_eq | exact Hi].
  rewrite Hmax'. split; [reflexivity|]. split; [reflexivity|].
  by apply Hnew.
Qed.

Lemma start_date_advances_under_append_witness :
  daily_db !! "daily" = Some two_quotes_table /\
  NoDup (map fst (df_columns next_quotes)) /\
  map fst (df_columns next_quotes) ⊆ map fst (tbl_columns two_quotes_table) /\
  index_of "trade_date" (map fst (tbl_columns two_quotes_table)) = Some 1%nat /\
  column_max (column_cells 1 two_quotes_table) = Some "20080102" /\
  exists d2,
    get_start_date (store := mem_store date_indexes) (source := daily_quotes)
                   tomorrow daily_db
      = tomorrow "20080102" /\
    get_start_date (store := mem_store date_indexes) (source := daily_quotes)
                   tomorrow
                   (state_after (to_db (store := mem_store date_indexes)
                                       (source := daily_quotes) next_quotes
                                       "append" daily_db))
      = tomorrow d2 /\
    str_le "20080102" d2.
Proof.
  assert (Hnd : NoDup (map fst (df_columns next_quotes))).
  { apply (bool_decide_unpack _). vm_compute. exact I. }
  assert (Hsub : map fst (df_columns next_quotes)
                   ⊆ map fst (tbl_columns two_quotes_table)).
  { apply (bool_decide_unpack _). vm_compute. exact I. }
  split; [reflexivity|]. split; [exact Hnd|]. split; [exact Hsub|].
  split; [reflexivity|]. split; [reflexivity|].
  apply (start_date_advances_under_append date_indexes daily_quotes tomorrow
           next_quotes daily_db two_quotes_table
           1 "20080102" eq_refl Hnd Hsub eq_refl eq_refl).
Defined.

(** X11: a table that is there but has no column of the date column's name
    makes [get_start_date] raise the query's error; the fallback date is
    for a missing table and for a column without values only. *)
Theorem start_date_needs_the_date_column :
  forall (ix : string -> DataFrame -> list string) (source : DatasetSource)
         (next_date : string -> result string)
         (db : gmap string Table) (tbl : Table),
    db !! get_table_name = Some tbl ->
    get_date_column_name ∉ map fst (tbl_columns tbl) ->
    get_start_date (store := mem_store ix) next_date db
      = Raise (OperationalError "no such column").
Proof.
  intros ix source next_date db tbl Htbl Hcol.
  unfold get_start_date. simpl. unfold mem_is_table_exist, mem_read_sql_max.
  rewrite Htbl. simpl.
  assert (Hnone : index_of get_date_column_name (map fst (tbl_columns tbl)) = None).
  { unfold index_of.
    destruct (list_find _ _) as [[j x]|] eqn:Hfind; [|reflexivity].
    apply list_find_Some in Hfind as (Hj & -> & _).
    exfalso. apply Hcol. by eapply list_elem_of_lookup_2. }
  rewrite Hnone. reflexivity.
Qed.

Lemma start_date_needs_the_date_column_witness :
  calendar_of_three_days !! "trade_cal" = Some three_days_table /\
  ("trade_date" ∉ map fst (tbl_columns three_days_table)) /\
  get_start_date (store := mem_store date_indexes)
                 (source := {| get_table_name := "trade_cal";
                               get_date_column_name := "trade_date" |})
                 tomorrow calendar_of_three_days
    = Raise (OperationalError "no such column").
Proof.
  assert (Hcol : "trade_date" ∉ map fst (tbl_columns three_days_table)).
  { apply (bool_decide_unpack _). vm_compute. exact I. }
  split; [reflexivity|]. split; [exact Hcol|].
  apply (start_date_needs_the_date_column date_indexes
           {| get_table_name := "trade_cal"; get_date_column_name := "trade_date" |}
           tomorrow calendar_of_three_days three_days_table eq_refl Hcol).
Defined.

(** ** [TradeCalendar.download] *)

(** X12: [download] asks the provider once and only once, without keyword
    arguments, and never sleeps: it does not go through [retry_call].  When
    that one call raises, [download] raises the same exception, nothing is
    written and the store is as it was. *)
Theorem download_calls_provider_once :
  forall {W S : Type} {store : Store S} (trade_cal : callable W DataFrame)
         (w : W) (s : S),
    let r := download trade_cal (w, s) in
    attempts (events r) = 1%nat /\
    head (events r) = Some (Call []) /\
    sleeps (events r) = [] /\
    forall e w',
      trade_cal [] w = (Raise e, w') ->
      outcome r = Raise e /\ state_after r = (w', s) /\ writes (events r) = 0%nat.
Proof.
  intros W S store trade_cal w s r. subst r. unfold download. simpl.
  destruct (trade_cal [] w) as [[df|e] w1] eqn:Hcall.
  - unfold to_db.
    destruct (to_sql get_table_name df "replace" dtype_dic 1000 s)
      as [[[]|e] s1]; [destruct (create_db_index get_table_name df s1)|];
      simpl; repeat split; intros; discriminate.
  - simpl. repeat split; congruence.
Qed.

(** X13: a download that succeeded can be repeated: when the provider
    returns the same frame again, the second [download] succeeds and
    leaves the store exactly as the first did. *)
Theorem download_twice_same_store :
  forall (ix : string -> DataFrame -> list string) {W : Type}
         (trade_cal : callable W DataFrame) (w w1 w2 : W) (df : DataFrame)
         (db : gmap string Table),
    NoDup (map fst (df_columns df)) ->
    trade_cal [] w = (Return df, w1) ->
    trade_cal [] w1 = (Return df, w2) ->
    let once := download (store := mem_store ix) trade_cal (w, db) in
    let twice := download (store := mem_store ix) trade_cal (state_after once) in
    outcome once = Return tt /\ outcome twice = Return tt /\
    snd (state_after twice) = snd (state_after once) /\
    tbl_rows <$> snd (state_after twice) !! "trade_cal" = Some (df_rows df).
Proof.
  intros ix W trade_cal w w1 w2 df db Hnd Hc1 Hc2 once twice.
  subst once twice. unfold download. simpl. rewrite Hc1.
  rewrite (to_db_mem_replace ix TradeCalendar df db Hnd). simpl.
  rewrite Hc2. rewrite (to_db_mem_replace ix TradeCalendar df _ Hnd). simpl.
  repeat split.
  - by rewrite insert_insert_eq.
  - by rewrite lookup_insert_eq.
Qed.

Lemma download_twice_same_store_witness :
  NoDup (map fst (df_columns three_days)) /\
  returns three_days [] tt = (Return three_days, tt) /\
  let once := download (store := mem_store date_indexes) (returns three_days)
                       (tt, empty_calendar) in
  let twice := download (store := mem_store date_indexes) (returns three_days)
                        (state_after once) in
  outcome once = Return tt /\ outcome twice = Return tt /\
  snd (state_after twice) = snd (state_after once) /\
  tbl_rows <$> snd (state_after twice) !! "trade_cal" = Some (df_rows three_days).
Proof.
  assert (Hnd : NoDup (map fst (df_columns three_days))).
  { apply (bool_decide_unpack _). vm_compute. exact I. }
  split; [exact Hnd|]. split; [reflexivity|].
  apply (download_twice_same_store date_indexes (returns three_days) tt tt tt
           three_days empty_calendar Hnd eq_refl eq_refl).
Defined.

(** * Properties of the backtest strategy *)

(** ** Removing from a list *)

Lemma list_remove_sublist (x : string) (l l' : list string) :
  list_remove x l = Some l' -> l' `sublist_of` l.
Proof.
  revert l'. induction l as [|y l IH]; intros l' Hrm; [discriminate|].
  simpl in Hrm. destruct (decide (y = x)) as [->|Hne].
  - injection Hrm as <-. by apply sublist_cons.
  - destruct (list_remove x l) as [l0|]; [|discriminate].
    injection Hrm as <-. apply sublist_skip. by apply IH.
Qed.

Lemma list_remove_keeps (x y : string) (l l' : list string) :
  list_remove x l = Some l' -> y ∈ l -> y <> x -> y ∈ l'.
Proof.
  revert l'. induction l as [|z l IH]; intros l' Hrm Hy Hne; [discriminate|].
  simpl in Hrm. destruct (decide (z = x)) as [->|Hzx].
  - injection Hrm as <-. apply elem_of_cons in Hy as [->|Hy]; [done | exact Hy].
  - destruct (list_remove x l) as [l0|]; [|discriminate].
    injection Hrm as <-. apply elem_of_cons in Hy as [->|Hy]; [by left|].
    right. by apply IH.
Qed.

Lemma filter_all (P : string -> Prop) `{!forall x, Decision (P x)}
    (l : list string) :
  (forall x, x ∈ l -> P x) -> filter P l = l.
Proof.
  induction l as [|y l IH]; intros Hall; [reflexivity|].
  rewrite filter_cons_True by (apply Hall; by left).
  f_equal. apply IH. intros x Hx. apply Hall. by right.
Qed.

Lemma filter_agree (P Q : string -> Prop)
    `{!forall x, Decision (P x)} `{!forall x, Decision (Q x)} (l : list string) :
  (forall x, x ∈ l -> (P x <-> Q x)) -> filter P l = filter Q l.
Proof.
  induction l as [|y l IH]; intros Hall; [reflexivity|].
  assert (Hrest : filter P l = filter Q l).
  { apply IH. intros x Hx. apply Hall. by right. }
  destruct (decide (P y)) as [Hp|Hp].
  - rewrite !filter_cons_True by (done || by apply Hall; [left|]).
    by rewrite Hrest.
  - rewrite !filter_cons_False by (done || (rewrite <- Hall; [done | by left])).
    exact Hrest.
Qed.

(** On a list without repetitions, [remove] is a filter. *)
Lemma list_remove_NoDup (x : string) (l : list string) :
  NoDup l -> x ∈ l ->
  list_remove x l = Some (filter (fun y => y <> x) l).
Proof.
  induction l as [|y l IH]; intros Hnd Hx; [by apply not_elem_of_nil in Hx|].
  apply NoDup_cons in Hnd as [Hy Hnd]. simpl.
  destruct (decide (y = x)) as [->|Hne].
  - rewrite filter_cons_False by (intros Hxx; by apply Hxx).
    rewrite filter_all; [reflexivity|]. intros z Hz ->. by apply Hy.
  - apply elem_of_cons in Hx as [->|Hx]; [done|].
    rewrite (IH Hnd Hx). simpl. by rewrite filter_cons_True.
Qed.

Section StrategyFacts.
Context `{selector : StockSelector}.

Lemma ahead_orders {St A} (evs : list order_event) (d : day St A) :
  day_orders (ahead evs d) = evs ++ day_orders d.
Proof. reflexivity. Qed.

Lemma closed_names_app (a b : list order_event) :
  closed_names (a ++ b) = closed_names a ++ closed_names b.
Proof. apply omap_app. Qed.

Lemma bought_names_app (a b : list order_event) :
  bought_names (a ++ b) = bought_names a ++ bought_names b.
Proof. apply omap_app. Qed.

Lemma selections_app (a b : list order_event) :
  selections (a ++ b) = (selections a + selections b)%nat.
Proof. unfold selections. by rewrite omap_app, length_app. Qed.

Lemma selections_cons_Close (name : string) (evs : list order_event) :
  selections (Close name :: evs) = selections evs.
Proof. reflexivity. Qed.

Lemma selections_cons_Buy (name : string) (size : Z) (price : Fl)
    (evs : list order_event) :
  selections (Buy name size price :: evs) = selections evs.
Proof. reflexivity. Qed.

(** ** The selling loop *)

(** Whatever happens, the selling loop only closes: it closes names of the
    list it is given, and what it leaves of the holdings is a part of
    what was there, with every name it has not closed still in it. *)
Lemma sell_stocks_orders (m : Market) (to_sell : list string) :
  forall held,
    let d := sell_stocks m to_sell held in
    bought_names (day_orders d) = [] /\
    selections (day_orders d) = 0%nat /\
    day_state d `sublist_of` held /\
    closed_names (day_orders d) `prefix_of` to_sell /\
    (forall e, e ∈ day_orders d -> exists name, e = Close name) /\
    (forall y, y ∈ held -> y ∉ to_sell -> y ∈ day_state d).
Proof.
  induction to_sell as [|s rest IH]; intros held; simpl.
  - split_and!; try done. intros e He. by apply not_elem_of_nil in He.
  - destruct (bool_decide (s ∈ datanames m)); simpl.
    + destruct (list_remove s held) as [held'|] eqn:Hrm; simpl.
      * destruct (IH held') as (Hb & Hs & Hsub & Hpre & Hev & Hkeep).
        rewrite selections_cons_Close, Hs.
        split_and!; try done.
        -- etrans; [exact Hsub|]. by eapply list_remove_sublist.
        -- by apply prefix_cons.
        -- intros e He. apply elem_of_cons in He as [->|He]; [eauto | by apply Hev].
        -- intros y Hy Hny. apply Hkeep.
           ++ eapply list_remove_keeps; [exact Hrm | exact Hy |].
              intros ->. apply Hny. by left.
           ++ intros Hin. apply Hny. by right.
      * split_and!; try done.
        -- apply prefix_cons, prefix_nil.
        -- intros e He. apply list_elem_of_singleton in He as ->. eauto.
    + split_and!; try done.
      * apply prefix_nil.
      * intros e He. by apply not_elem_of_nil in He.
Qed.

(** With holdings in order, selling names that are held goes through, and
    leaves the holdings without them. *)
Lemma sell_stocks_all (m : Market) (to_sell : list string) :
  forall held,
    NoDup to_sell -> to_sell ⊆ held -> held ⊆ datanames m -> NoDup held ->
    sell_stocks m to_sell held =
      Day (Return tt) (filter (fun y => y ∉ to_sell) held) (Close <$> to_sell).
Proof.
  induction to_sell as [|s rest IH]; intros held Hnd Hsub Hdata Hheld; simpl.
  - rewrite filter_all; [reflexivity|]. intros x _. apply not_elem_of_nil.
  - apply NoDup_cons in Hnd as [Hs Hnd].
    assert (Hin : s ∈ held) by (apply Hsub; by left).
    rewrite bool_decide_eq_true_2 by (by apply Hdata).
    rewrite (list_remove_NoDup s held Hheld Hin).
    rewrite IH; first last.
    + by apply NoDup_filter.
    + intros x Hx. apply list_elem_of_filter in Hx as [_ Hx]. by apply Hdata.
    + intros x Hx. apply list_elem_of_filter. split.
      * intros ->. by apply Hs.
      * apply Hsub. by right.
    + exact Hnd.
    + unfold ahead. simpl. f_equal.
      rewrite list_filter_filter. apply filter_agree.
      intros x _. rewrite not_elem_of_cons. tauto.
Qed.

(** ** The buying loop *)

(** Whatever happens, the buying loop only buys: names of the selection
    that are data feeds and were not held, each at its opening price and
    in the size the one amount pays for; the names come behind the
    holdings in the order they were bought. *)
Lemma buy_stocks_orders (m : Market) (amount : Fl) (sel : list string) :
  forall held,
    let d := buy_stocks m amount sel held in
    closed_names (day_orders d) = [] /\
    selections (day_orders d) = 0%nat /\
    day_state d = held ++ bought_names (day_orders d) /\
    (forall b, b ∈ bought_names (day_orders d) ->
               b ∈ sel /\ b ∈ datanames m /\ b ∉ held) /\
    (forall e, e ∈ day_orders d ->
               exists name size,
                 e = Buy name size (open_price m name) /\
                 ceil_div amount (open_price m name) = Return size) /\
    (NoDup held -> NoDup (day_state d)).
Proof.
  induction sel as [|b rest IH]; intros held; simpl.
  - rewrite app_nil_r. split_and!; try done;
      intros x Hx; by apply not_elem_of_nil in Hx.
  - destruct (bool_decide (b ∈ datanames m)) eqn:Hdata; simpl.
    2:{ destruct (IH held) as (Hc & Hs & Hst & Hb & Hev & Hnd).
        split_and!; try done.
        intros x Hx. destruct (Hb x Hx) as (? & ? & ?).
        split; [by right | done]. }
    destruct (bool_decide (b ∈ held)) eqn:Hheld.
    { destruct (IH held) as (Hc & Hs & Hst & Hb & Hev & Hnd).
      split_and!; try done.
      intros x Hx. destruct (Hb x Hx) as (? & ? & ?).
      split; [by right | done]. }
    apply bool_decide_eq_true_1 in Hdata.
    apply bool_decide_eq_false_1 in Hheld.
    destruct (ceil_div amount (open_price m b)) as [size|e] eqn:Hsize; simpl.
    + destruct (IH (held ++ [b])) as (Hc & Hs & Hst & Hb & Hev & Hnd).
      rewrite selections_cons_Buy, Hs.
      split_and!; try done.
      * rewrite Hst. by rewrite <- app_assoc.
      * intros x Hx. apply elem_of_cons in Hx as [->|Hx].
        -- split; [by left | done].
        -- destruct (Hb x Hx) as (Hsel & Hd & Hnot).
           split; [by right|]. split; [done|].
           intros Hin. apply Hnot, elem_of_app. by left.
      * intros ev Hev'. apply elem_of_cons in Hev' as [->|Hev'];
          [eauto | by apply Hev].
      * intros Hndh. apply Hnd. apply NoDup_app. repeat split.
        -- exact Hndh.
        -- intros x Hx Hxb. apply list_elem_of_singleton in Hxb as ->. done.
        -- apply NoDup_singleton.
    + rewrite app_nil_r. split_and!; try done;
        intros x Hx; by apply not_elem_of_nil in Hx.
Qed.

(** When the buying loop returns, every selected data feed is held. *)
Lemma buy_stocks_returns (m : Market) (amount : Fl) (sel : list string) :
  forall held,
    day_outcome (buy_stocks m amount sel held) = Return tt ->
    forall x, x ∈ sel -> x ∈ datanames m ->
              x ∈ day_state (buy_stocks m amount sel held).
Proof.
  induction sel as [|b rest IH]; intros held Hret x Hx Hd;
    [by apply not_elem_of_nil in Hx|].
  assert (Hmono : forall h, h `prefix_of` day_state (buy_stocks m amount rest h)).
  { intros h. destruct (buy_stocks_orders m amount rest h) as (_ & _ & -> & _).
    by apply prefix_app_r. }
  simpl in *.
  destruct (bool_decide (b ∈ datanames m)) eqn:Hdata; simpl in *.
  2:{ apply elem_of_cons in Hx as [->|Hx]; [|by apply IH].
      apply bool_decide_eq_false_1 in Hdata. done. }
  destruct (bool_decide (b ∈ held)) eqn:Hheld.
  { apply elem_of_cons in Hx as [->|Hx]; [|by apply IH].
    apply bool_decide_eq_true_1 in Hheld.
    destruct (Hmono held) as [k ->]. apply elem_of_app. by left. }
  destruct (ceil_div amount (open_price m b)) as [size|e]; [|discriminate].
  simpl in *. apply elem_of_cons in Hx as [->|Hx]; [|by apply IH].
  destruct (Hmono (held ++ [b])) as [k ->].
  rewrite !elem_of_app. left; right. by left.
Qed.
End StrategyFacts.

Section StrategyProperties.
Context `{selector : StockSelector}.

(** The names the selling loop goes through: those held and not selected,
    each once. *)
Lemma to_sell_stocks_spec (held sel : list string) :
  let l := iter_set (list_to_set held ∖ list_to_set sel) in
  NoDup l /\ forall x, x ∈ l <-> x ∈ held /\ x ∉ sel.
Proof.
  intros l. subst l. split.
  - rewrite iter_set_perm. apply NoDup_elements.
  - intros x. rewrite iter_set_perm, elem_of_elements, elem_of_difference,
      !elem_of_list_to_set. done.
Qed.

Lemma Buy_in_bought_names (name : string) (size : Z) (price : Fl)
    (evs : list order_event) :
  Buy name size price ∈ evs -> name ∈ bought_names evs.
Proof.
  intros Hin. unfold bought_names. apply list_elem_of_omap.
  by exists (Buy name size price).
Qed.

Lemma Close_in_closed_names (name : string) (evs : list order_event) :
  name ∈ closed_names evs <-> Close name ∈ evs.
Proof.
  unfold closed_names. rewrite list_elem_of_omap. split.
  - intros ([d|n|n sz pr] & Hin & Heq); try discriminate.
    by injection Heq as ->.
  - intros Hin. by exists (Close name).
Qed.

(** What [next] does to its counters, and whether it asks for a selection. *)
Lemma next_counters (m : Market) (self : MultiStocksFactorStrategy) :
  let d := next m self in
  let rebalance := negb (current_day self + 1 <? period self) in
  count (day_state d) = count self + 1 /\
  period (day_state d) = period self /\
  factor_dict (day_state d) = factor_dict self /\
  current_day (day_state d) = (if rebalance then 0 else current_day self + 1) /\
  selections (day_orders d) = (if rebalance then 1 else 0)%nat /\
  (rebalance = false ->
   d = Day (Return tt) (day_state d) [] /\
   current_stocks (day_state d) = current_stocks self).
Proof.
  unfold next. cbn [current_day period factor_dict count current_stocks].
  destruct (current_day self + 1 <? period self); cbn [negb].
  { by split_and!. }
  destruct (select_stocks (factor_dict self) (bar_date m)) as [[sel|]|e];
    [| by split_and! | by split_and!].
  pose proof (sell_stocks_orders m
                (iter_set (list_to_set (current_stocks self) ∖ list_to_set sel))
                (current_stocks self)) as (_ & Hsold & _).
  destruct (day_outcome (sell_stocks m _ (current_stocks self))) as [[]|e].
  - destruct (bool_decide (length sel = 0%nat)).
    + simpl. split_and!; try done.
      change (selections (SelectStocks ?d :: ?evs)) with (Datatypes.S (selections evs)).
      by rewrite Hsold.
    + simpl. split_and!; try done.
      pose proof (buy_stocks_orders m
                    (fmul (percentage_of (length sel)) (cash m)) sel
                    (day_state (sell_stocks m
                       (iter_set (list_to_set (current_stocks self) ∖ list_to_set sel))
                       (current_stocks self)))) as (_ & Hbought & _).
      change (selections (SelectStocks ?d :: ?evs)) with (Datatypes.S (selections evs)).
      by rewrite selections_app, Hsold, Hbought.
  - simpl. split_and!; try done.
    change (selections (SelectStocks ?d :: ?evs)) with (Datatypes.S (selections evs)).
    by rewrite Hsold.
Qed.

(** X14: the strategy rebalances every [period] bars, no more and no less.
    Over a run of bars that ends without an exception, [count] grows by the
    number of bars, [current_day] is the number of bars since the last
    rebalance, and [select_stocks] has been asked exactly once for every
    full period. *)
Theorem rebalance_every_period :
  forall (days : list Market) (self : MultiStocksFactorStrategy),
    1 <= period self ->
    0 <= current_day self < period self ->
    day_outcome (run_days days self) = Return tt ->
    let final := day_state (run_days days self) in
    let bars := current_day self + Z.of_nat (length days) in
    period final = period self /\
    count final = count self + Z.of_nat (length days) /\
    current_day final = bars mod period self /\
    Z.of_nat (selections (day_orders (run_days days self))) = bars / period self.
Proof.
  induction days as [|m days IH]; intros self Hp Hc Hret.
  - cbv zeta. simpl. rewrite Z.add_0_r, Z.mod_small, Z.div_small by lia.
    split_and!; (done || lia).
  - cbn [run_days] in *.
    pose proof (next_counters m self) as (Hcount & Hper & _ & Hday & Hsel & _).
    cbv zeta in Hcount, Hper, Hday, Hsel.
    destruct (day_outcome (next m self)) as [[]|e] eqn:Hout;
      [|rewrite Hout in Hret; discriminate].
    cbn [ahead day_outcome day_state day_orders] in *.
    rewrite selections_app, Hsel.
    destruct (IH (day_state (next m self))) as (Hp' & Hc' & Hd' & Hs');
      [rewrite Hper; lia | | exact Hret |].
    { rewrite Hday, Hper.
      destruct (Z.ltb_spec (current_day self + 1) (period self)); simpl; lia. }
    cbv zeta. rewrite Hp', Hc', Hd', Hper, Hcount, Hday.
    rewrite Nat2Z.inj_add, Hs', Hday, Hper.
    replace (Z.of_nat (length (m :: days)))
      with (1 + Z.of_nat (length days)) by (simpl length; lia).
    destruct (Z.ltb_spec (current_day self + 1) (period self)) as [Hlt|Hge];
      simpl negb; cbv iota.
    + split_and!; [done | lia | f_equal; lia |].
      simpl Z.of_nat. rewrite Z.add_0_l. f_equal. lia.
    + assert (Hfull : current_day self + 1 = period self) by lia.
      replace (current_day self + (1 + Z.of_nat (length days)))
        with (Z.of_nat (length days) + 1 * period self) by lia.
      rewrite Z_mod_plus_full, Z.div_add by lia.
      split_and!; [done | lia | f_equal; lia |].
      simpl Z.of_nat. rewrite Z.add_0_l. lia.
Qed.
End StrategyProperties.

Section RebalanceProperties.
Context `{selector : StockSelector}.

Lemma closed_names_Close (l : list string) :
  closed_names (Close <$> l) = l /\ bought_names (Close <$> l) = [].
Proof.
  induction l as [|x l [IH1 IH2]]; [done|].
  split; simpl; [by f_equal | exact IH2].
Qed.

(** A bar keeps the holdings in order, whatever its outcome. *)
Lemma next_holdings_ok (m : Market) (self : MultiStocksFactorStrategy) :
  holdings_ok (datanames m) (current_stocks self) ->
  holdings_ok (datanames m) (current_stocks (day_state (next m self))).
Proof.
  intros [Hnd Hsub]. unfold next.
  cbn [current_day period factor_dict count current_stocks].
  destruct (current_day self + 1 <? period self); [done|].
  destruct (select_stocks (factor_dict self) (bar_date m)) as [[sel|]|e];
    [|done|done].
  pose proof (sell_stocks_orders m
                (iter_set (list_to_set (current_stocks self) ∖ list_to_set sel))
                (current_stocks self)) as (_ & _ & Hsl & _).
  set (sold := sell_stocks m _ (current_stocks self)) in *.
  assert (Hsold : holdings_ok (datanames m) (day_state sold)).
  { split; [by eapply sublist_NoDup|].
    etrans; [by apply sublist_subseteq | exact Hsub]. }
  destruct (day_outcome sold) as [[]|e]; [|exact Hsold].
  destruct (bool_decide (length sel = 0%nat)); [exact Hsold|].
  cbn [day_state set_current_stocks current_stocks].
  pose proof (buy_stocks_orders m (fmul (percentage_of (length sel)) (cash m))
                sel (day_state sold)) as (_ & _ & Hst & Hb & _ & Hnd').
  destruct Hsold as [Hnd1 Hsub1]. split; [by apply Hnd'|].
  cbv zeta in Hst. rewrite Hst. intros x Hx.
  apply elem_of_app in Hx as [Hx|Hx]; [by apply Hsub1|].
  by apply Hb in Hx as (_ & Hd & _).
Qed.

(** X15: no stock is ever held twice, and every stock held is a data feed:
    a run of bars over one set of feeds keeps the list of holdings in that
    state, also when a bar ends in an exception half way. *)
Theorem holdings_stay_ok :
  forall (names : list string) (days : list Market)
         (self : MultiStocksFactorStrategy),
    Forall (fun m => datanames m = names) days ->
    holdings_ok names (current_stocks self) ->
    holdings_ok names (current_stocks (day_state (run_days days self))).
Proof.
  intros names days. induction days as [|m days IH]; intros self Hdays Hok;
    [exact Hok|].
  apply Forall_cons in Hdays as [Hm Hdays]. cbn [run_days].
  pose proof (next_holdings_ok m self) as Hnext. rewrite Hm in Hnext.
  specialize (Hnext Hok).
  destruct (day_outcome (next m self)); [|exact Hnext].
  cbn [ahead day_state]. by apply IH.
Qed.

(** What a rebalancing bar does once the selection is in and the holdings
    are in order: the selling loop goes through. *)
Lemma next_rebalance (m : Market) (self : MultiStocksFactorStrategy)
    (sel : list string) :
  holdings_ok (datanames m) (current_stocks self) ->
  period self <= current_day self + 1 ->
  select_stocks (factor_dict self) (bar_date m) = Return (Some sel) ->
  exists l self1,
    l ≡ₚ filter (fun x => x ∉ sel) (current_stocks self) /\
    self1 = {| period := period self; factor_dict := factor_dict self;
               current_day := 0;
               current_stocks := filter (fun x => x ∈ sel) (current_stocks self);
               count := count self + 1 |} /\
    next m self =
      if bool_decide (length sel = 0%nat) then
        Day (Raise ZeroDivisionError) self1
            (SelectStocks (bar_date m) :: (Close <$> l))
      else
        let bought :=
          buy_stocks m (fmul (percentage_of (length sel)) (cash m)) sel
                     (current_stocks self1) in
        Day (day_outcome bought) (set_current_stocks (day_state bought) self1)
            (SelectStocks (bar_date m) :: (Close <$> l) ++ day_orders bought).
Proof.
  intros [Hnd Hsub] Hday Hsel.
  destruct (to_sell_stocks_spec (current_stocks self) sel) as [Hl Hmem].
  set (l := iter_set (list_to_set (current_stocks self) ∖ list_to_set sel)) in *.
  exists l. eexists. split; [|split; [reflexivity|]].
  { apply NoDup_Permutation; [exact Hl | by apply NoDup_filter |].
    intros x. rewrite Hmem, list_elem_of_filter. tauto. }
  unfold next. cbn [current_day period factor_dict count current_stocks].
  destruct (Z.ltb_spec (current_day self + 1) (period self)); [lia|].
  rewrite Hsel. fold l.
  rewrite sell_stocks_all; [| exact Hl | | exact Hsub | exact Hnd].
  2:{ intros x Hx. by apply Hmem in Hx as [? _]. }
  cbn [day_outcome day_state day_orders].
  assert (Hkept : filter (fun y => y ∉ l) (current_stocks self)
                  = filter (fun x => x ∈ sel) (current_stocks self)).
  { apply filter_agree. intros x Hx. rewrite Hmem.
    destruct (decide (x ∈ sel)); tauto. }
  rewrite Hkept. reflexivity.
Qed.
End RebalanceProperties.

Lemma holdings_stay_ok_witness :
  Forall (fun m => datanames m = ["000001.SZ"; "000002.SZ"; "600000.SH"])
         [sample_market "20080102"; sample_market "20080103"] /\
  holdings_ok ["000001.SZ"; "000002.SZ"; "600000.SH"]
              (current_stocks (sample_strategy 1 ["000002.SZ"])) /\
  holdings_ok ["000001.SZ"; "000002.SZ"; "600000.SH"]
    (current_stocks
       (day_state
          (run_days (selector := always_selects (Some ["600000.SH"; "300001.SZ"]))
                    [sample_market "20080102"; sample_market "20080103"]
                    (sample_strategy 1 ["000002.SZ"])))).
Proof.
  assert (Hdays : Forall (fun m => datanames m = ["000001.SZ"; "000002.SZ"; "600000.SH"])
                         [sample_market "20080102"; sample_market "20080103"]).
  { repeat constructor. }
  assert (Hok : holdings_ok ["000001.SZ"; "000002.SZ"; "600000.SH"]
                            (current_stocks (sample_strategy 1 ["000002.SZ"]))).
  { split; apply (bool_decide_unpack _); vm_compute; exact I. }
  split; [exact Hdays|]. split; [exact Hok|].
  apply (holdings_stay_ok (selector := always_selects (Some ["600000.SH"; "300001.SZ"]))
           ["000001.SZ"; "000002.SZ"; "600000.SH"]
           [sample_market "20080102"; sample_market "20080103"]
           (sample_strategy 1 ["000002.SZ"]) Hdays Hok).
Defined.

Lemma rebalance_every_period_witness :
  1 <= period fresh_strategy /\
  0 <= current_day fresh_strategy < period fresh_strategy /\
  let r := run_days (selector := always_selects (Some ["600000.SH"]))
                    (replicate 7 (sample_market "20080102")) fresh_strategy in
  day_outcome r = Return tt /\
  count (day_state r) = 7 /\
  current_day (day_state r) = 1 /\
  selections (day_orders r) = 2%nat.
Proof.
  split; [discriminate|]. split; [split; [discriminate | reflexivity]|].
  cbv zeta. split; [reflexivity|].
  destruct (rebalance_every_period (selector := always_selects (Some ["600000.SH"]))
              (replicate 7 (sample_market "20080102")) fresh_strategy)
    as (_ & Hcount & Hday & Hsel);
    [discriminate | split; [discriminate | reflexivity] | reflexivity |].
  split; [exact Hcount|]. split; [exact Hday|].
  apply Nat2Z.inj. exact Hsel.
Defined.

Section SelectionProperties.
Context `{selector : StockSelector}.

(** X16: a rebalancing bar that returns leaves the strategy holding exactly
    the selected stocks that are data feeds.  It has closed the stocks held
    and not selected, each once, in whatever order the set came; it has
    kept the others in their old order; and behind them it has put the
    stocks it bought: those selected, with a data feed, and not held
    before. *)
Theorem rebalance_holds_selection :
  forall (m : Market) (self : MultiStocksFactorStrategy) (sel : list string),
    holdings_ok (datanames m) (current_stocks self) ->
    period self <= current_day self + 1 ->
    select_stocks (factor_dict self) (bar_date m) = Return (Some sel) ->
    day_outcome (next m self) = Return tt ->
    let held := current_stocks self in
    let held' := current_stocks (day_state (next m self)) in
    let orders := day_orders (next m self) in
    NoDup held' /\
    (forall x, x ∈ held' <-> x ∈ sel /\ x ∈ datanames m) /\
    held' = filter (fun x => x ∈ sel) held ++ bought_names orders /\
    closed_names orders ≡ₚ filter (fun x => x ∉ sel) held /\
    (forall x, x ∈ bought_names orders <->
               x ∈ sel /\ x ∈ datanames m /\ x ∉ held).
Proof.
  intros m self sel Hok Hday Hsel Hret held held' orders.
  subst held held' orders.
  destruct (next_rebalance m self sel Hok Hday Hsel)
    as (l & self1 & Hl & -> & Hnext).
  rewrite Hnext in *. clear Hnext.
  destruct (bool_decide (length sel = 0%nat)); [discriminate|].
  cbv zeta in *. cbn [current_stocks day_outcome day_state day_orders
                      set_current_stocks] in *.
  destruct Hok as [Hnd Hsub].
  set (kept := filter (fun x => x ∈ sel) (current_stocks self)) in *.
  pose proof (buy_stocks_orders m (fmul (percentage_of (length sel)) (cash m))
                sel kept) as (Hbc & _ & Hst & Hb & _ & Hnd').
  pose proof (buy_stocks_returns m (fmul (percentage_of (length sel)) (cash m))
                sel kept Hret) as Hall.
  set (bought := buy_stocks m (fmul (percentage_of (length sel)) (cash m)) sel kept)
    in *.
  cbv zeta in Hbc, Hst, Hb, Hnd'.
  assert (Hnames : bought_names (SelectStocks (bar_date m)
                                   :: (Close <$> l) ++ day_orders bought)
                   = bought_names (day_orders bought)).
  { change (bought_names (SelectStocks ?d :: ?evs)) with (bought_names evs).
    rewrite bought_names_app. by rewrite (proj2 (closed_names_Close l)). }
  assert (Hclosed : closed_names (SelectStocks (bar_date m)
                                    :: (Close <$> l) ++ day_orders bought) = l).
  { change (closed_names (SelectStocks ?d :: ?evs)) with (closed_names evs).
    rewrite closed_names_app, (proj1 (closed_names_Close l)), Hbc.
    by rewrite app_nil_r. }
  assert (Hkept : forall x, x ∈ kept <-> x ∈ current_stocks self /\ x ∈ sel).
  { intros x. unfold kept. rewrite list_elem_of_filter. tauto. }
  rewrite Hnames, Hclosed. split_and!.
  - apply Hnd'. by apply NoDup_filter.
  - intros x. split.
    + rewrite Hst, elem_of_app, Hkept. intros [[Hx Hs] | Hx].
      * split; [exact Hs | by apply Hsub].
      * apply Hb in Hx. tauto.
    + intros [Hs Hd]. by apply Hall.
  - exact Hst.
  - exact Hl.
  - intros x. split.
    + intros Hx. destruct (Hb x Hx) as (Hs & Hd & Hnot).
      split_and!; [done | done |]. intros Hheld. apply Hnot, Hkept. done.
    + intros (Hs & Hd & Hnot). specialize (Hall x Hs Hd).
      rewrite Hst, elem_of_app, Hkept in Hall. tauto.
Qed.

(** X17: an empty selection on a rebalancing bar sells everything and then
    fails.  All holdings are closed and the list of holdings is empty, and
    the division by the number of selected stocks raises
    [ZeroDivisionError]; nothing is bought. *)
Theorem empty_selection_sells_all_then_raises :
  forall (m : Market) (self : MultiStocksFactorStrategy),
    holdings_ok (datanames m) (current_stocks self) ->
    period self <= current_day self + 1 ->
    select_stocks (factor_dict self) (bar_date m) = Return (Some []) ->
    day_outcome (next m self) = Raise ZeroDivisionError /\
    current_stocks (day_state (next m self)) = [] /\
    closed_names (day_orders (next m self)) ≡ₚ current_stocks self /\
    bought_names (day_orders (next m self)) = [].
Proof.
  intros m self Hok Hday Hsel.
  destruct (next_rebalance m self [] Hok Hday Hsel)
    as (l & self1 & Hl & -> & ->).
  cbn [length bool_decide decide_rel]. simpl bool_decide. cbv iota.
  cbn [day_outcome day_state day_orders current_stocks].
  change (closed_names (SelectStocks ?d :: ?evs)) with (closed_names evs).
  change (bought_names (SelectStocks ?d :: ?evs)) with (bought_names evs).
  destruct (closed_names_Close l) as [-> ->].
  split_and!; [done | | | done].
  - generalize (current_stocks self). intros held.
    induction held as [|x held IH]; [done|].
    rewrite filter_cons_False; [exact IH | apply not_elem_of_nil].
  - rewrite Hl. rewrite filter_all; [done|].
    intros x _. apply not_elem_of_nil.
Qed.

(** X18: the orders of a bar follow the selection.  [next] closes only
    stocks that were held and are not selected.  It buys only stocks that
    are selected, have a data feed and were not held, at the opening price
    and in the size that the cash, shared out over all the selected stocks,
    pays for at that price. *)
Theorem orders_follow_selection :
  forall (m : Market) (self : MultiStocksFactorStrategy),
    (forall name,
        Close name ∈ day_orders (next m self) ->
        name ∈ current_stocks self /\
        exists sel,
          select_stocks (factor_dict self) (bar_date m) = Return (Some sel) /\
          name ∉ sel) /\
    (forall name size price,
        Buy name size price ∈ day_orders (next m self) ->
        exists sel,
          select_stocks (factor_dict self) (bar_date m) = Return (Some sel) /\
          name ∈ sel /\ name ∈ datanames m /\ (name ∉ current_stocks self) /\
          price = open_price m name /\
          ceil_div (fmul (percentage_of (length sel)) (cash m)) price
            = Return size).
Proof.
  intros m self. unfold next.
  cbn [current_day period factor_dict count current_stocks].
  assert (Hnone : forall d : Date,
    (forall name, Close name ∈ [SelectStocks d] -> False) /\
    (forall name size price, Buy name size price ∈ [SelectStocks d] -> False)).
  { intros d. split; intros * Hin;
      apply list_elem_of_singleton in Hin; discriminate. }
  destruct (current_day self + 1 <? period self).
  { simpl. split; intros * Hin; by apply not_elem_of_nil in Hin. }
  destruct (select_stocks (factor_dict self) (bar_date m)) as [[sel|]|e];
    [| simpl; split; intros * Hin; exfalso;
       [eapply (proj1 (Hnone _)) | eapply (proj2 (Hnone _))]; exact Hin
     | simpl; split; intros * Hin; exfalso;
       [eapply (proj1 (Hnone _)) | eapply (proj2 (Hnone _))]; exact Hin].
  destruct (to_sell_stocks_spec (current_stocks self) sel) as [_ Hmem].
  pose proof (sell_stocks_orders m
                (iter_set (list_to_set (current_stocks self) ∖ list_to_set sel))
                (current_stocks self)) as (_ & _ & _ & Hpre & Hev & Hkeep).
  set (l := iter_set (list_to_set (current_stocks self) ∖ list_to_set sel)) in *.
  set (sold := sell_stocks m l (current_stocks self)) in *.
  cbv zeta in Hpre, Hev, Hkeep.
  pose proof (buy_stocks_orders m (fmul (percentage_of (length sel)) (cash m))
                sel (day_state sold)) as (Hbc & _ & _ & Hb & Hbev & _).
  set (bought := buy_stocks m (fmul (percentage_of (length sel)) (cash m))
                            sel (day_state sold)) in *.
  cbv zeta in Hbc, Hb, Hbev.
  assert (Hclose : forall name, Close name ∈ day_orders sold ->
            name ∈ current_stocks self /\
            exists sel0, Return (Some sel) = Return (Some sel0) /\ name ∉ sel0).
  { intros name Hin. apply Close_in_closed_names in Hin.
    destruct Hpre as [k Hk].
    assert (Hl : name ∈ l) by (rewrite Hk; apply elem_of_app; by left).
    apply Hmem in Hl as [? ?]. split; [done|]. by exists sel. }
  assert (Hnobuy : forall name size price, Buy name size price ∈ day_orders sold -> False).
  { intros name size price Hin. by destruct (Hev _ Hin). }
  assert (Hbuy : forall name size price, Buy name size price ∈ day_orders bought ->
            exists sel0, Return (Some sel) = Return (Some sel0) /\
              name ∈ sel0 /\ name ∈ datanames m /\ (name ∉ current_stocks self) /\
              price = open_price m name /\
              ceil_div (fmul (percentage_of (length sel0)) (cash m)) price
                = Return size).
  { intros name size price Hin. exists sel. split; [done|].
    destruct (Hb name (Buy_in_bought_names _ _ _ _ Hin)) as (Hs & Hd & Hnot).
    destruct (Hbev _ Hin) as (n' & s' & [= <- <- ->] & Hsize).
    split_and!; try done.
    intros Hheld. apply Hnot, Hkeep; [exact Hheld|].
    intros Hl. by apply Hmem in Hl as [_ ?]. }
  assert (Hnoclose : forall name, Close name ∈ day_orders bought -> False).
  { intros name Hin. apply Close_in_closed_names in Hin.
    rewrite Hbc in Hin. by apply not_elem_of_nil in Hin. }
  destruct (day_outcome sold) as [[]|e];
    [destruct (bool_decide (length sel = 0%nat))|];
    cbn [day_orders]; split.
  all: intros; repeat match goal with
    | Hin : _ ∈ _ :: _ |- _ => apply elem_of_cons in Hin as [Hin|Hin]; [discriminate|]
    | Hin : _ ∈ _ ++ _ |- _ => apply elem_of_app in Hin as [Hin|Hin]
    end; eauto; exfalso; eauto.
Qed.
End SelectionProperties.

Lemma rebalance_holds_selection_witness :
  let m := sample_market "20080102" in
  let picks := always_selects (Some sample_selection) in
  holdings_ok (datanames m) (current_stocks holding_two) /\
  period holding_two <= current_day holding_two + 1 /\
  select_stocks (StockSelector := picks) (factor_dict holding_two) (bar_date m)
    = Return (Some sample_selection) /\
  day_outcome (next (selector := picks) m holding_two) = Return tt /\
  let held := current_stocks holding_two in
  let held' := current_stocks (day_state (next (selector := picks) m holding_two)) in
  let orders := day_orders (next (selector := picks) m holding_two) in
  NoDup held' /\
  (forall x, x ∈ held' <-> x ∈ sample_selection /\ x ∈ datanames m) /\
  held' = filter (fun x => x ∈ sample_selection) held ++ bought_names orders /\
  closed_names orders ≡ₚ filter (fun x => x ∉ sample_selection) held /\
  (forall x, x ∈ bought_names orders <->
             x ∈ sample_selection /\ x ∈ datanames m /\ x ∉ held).
Proof.
  intros m picks.
  assert (Hok : holdings_ok (datanames m) (current_stocks holding_two)).
  { split; apply (bool_decide_unpack _); vm_compute; exact I. }
  assert (Hday : period holding_two <= current_day holding_two + 1).
  { discriminate. }
  split; [exact Hok|]. split; [exact Hday|].
  split; [reflexivity|]. split; [reflexivity|].
  apply (rebalance_holds_selection (selector := picks) m holding_two
           sample_selection Hok Hday eq_refl eq_refl).
Defined.

Lemma empty_selection_sells_all_then_raises_witness :
  let m := sample_market "20080102" in
  let picks := always_selects (Some []) in
  holdings_ok (datanames m) (current_stocks holding_two) /\
  period holding_two <= current_day holding_two + 1 /\
  select_stocks (StockSelector := picks) (factor_dict holding_two) (bar_date m)
    = Return (Some []) /\
  day_outcome (next (selector := picks) m holding_two) = Raise ZeroDivisionError /\
  current_stocks (day_state (next (selector := picks) m holding_two)) = [] /\
  closed_names (day_orders (next (selector := picks) m holding_two))
    ≡ₚ current_stocks holding_two /\
  bought_names (day_orders (next (selector := picks) m holding_two)) = [].
Proof.
  intros m picks.
  assert (Hok : holdings_ok (datanames m) (current_stocks holding_two)).
  { split; apply (bool_decide_unpack _); vm_compute; exact I. }
  assert (Hday : period holding_two <= current_day holding_two + 1).
  { discriminate. }
  split; [exact Hok|]. split; [exact Hday|]. split; [reflexivity|].
  apply (empty_selection_sells_all_then_raises (selector := picks) m holding_two
           Hok Hday eq_refl).
Defined.
